(** * Twitch sentiment pipeline: a shallow embedding of [svm.py] and [API.py]

    The development follows the two Python modules:
    - [Py]  : the fragment of the Python runtime the code relies on
              (exceptions, [str] methods, [collections.deque], JSON values);
    - [Svm] : [SentimentClassifier] and [AnonymousTwitchReader] of [svm.py];
    - [Api] : the [event_stream] generator of [API.py];
    - [Store], [Loop], [Startup], [Endpoints] : the database as the
              ingestion path leaves it, the lines of the listen loop, the
              start-up of the reader ([main], [__init__],
              [connect_and_listen]) and the statistics route.

    Python floats are idealised as rationals ([Q]); every score the code
    itself produces is [1.0] or [-1.0].  A Python [str] is kept as the bytes
    of its UTF-8 encoding. *)

From Stdlib Require Import String Ascii List ZArith QArith Bool Lia.
From Stdlib Require Import DecimalString Lqa Sorted.
Import ListNotations.

Set Warnings "-register-all".

Open Scope string_scope.
Open Scope list_scope.

(* ================================================================== *)
(** ** The Python runtime fragment *)
(* ================================================================== *)

Module Py.

(** Exception classes that can reach an [except Exception] clause here. *)
Inductive exn_class : Type :=
  | AttributeError
  | TypeError
  | IndexError
  | SqliteError          (* sqlite3.Error and its subclasses *)
  | ModelError           (* whatever the unpickled model objects raise *)
  | ConnectionClosed.    (* websockets.exceptions.ConnectionClosed *)

(** An exception instance: its class and [str(e)]. *)
Record exn : Type := Exn { exn_cls : exn_class; exn_str : string }.

(** Outcome of evaluating an expression: a value or a raised exception. *)
Inductive result (A : Type) : Type :=
  | Ok (a : A)
  | Raise (e : exn).
Arguments Ok {A} a.
Arguments Raise {A} e.

Definition bind {A B : Type} (m : result A) (k : A -> result B) : result B :=
  match m with
  | Ok a => k a
  | Raise e => Raise e
  end.

Declare Scope py_scope.
Delimit Scope py_scope with py.
Notation "x <- m ;; k" := (bind m (fun x => k))
  (at level 61, m at next level, right associativity) : py_scope.

(** *** [str] *)

(** [s.startswith(p)] *)
Definition startswith (p s : string) : bool := String.prefix p s.

(** [needle in hay] on strings *)
Fixpoint str_in (needle hay : string) : bool :=
  String.prefix needle hay ||
  match hay with
  | EmptyString => false
  | String _ hay' => str_in needle hay'
  end.

(** [s[1:]] *)
Definition str_tail (s : string) : string :=
  match s with
  | EmptyString => EmptyString
  | String _ s' => s'
  end.

(** A byte that continues a UTF-8 sequence (10xxxxxx). *)
Definition is_continuation (c : ascii) : bool :=
  let b := nat_of_ascii c in ((128 <=? b) && (b <? 192))%nat.

(** [s[:n]] for a non-negative literal [n].  A string here is the UTF-8
    encoding of the Python text, and the slice counts characters: a lead
    byte uses up one of the [n], the continuation bytes that follow it go
    with it. *)
Fixpoint str_take (n : nat) (s : string) : string :=
  match s with
  | EmptyString => EmptyString
  | String c s' =>
      if is_continuation c then String c (str_take n s')
      else match n with
           | O => EmptyString
           | S n' => String c (str_take n' s')
           end
  end.

(** [s.split(sep, maxsplit)] for a one-character separator; [None] is the
    default [maxsplit = -1] (no limit).  Empty fields are kept, and once the
    limit is used up the rest of the string is the last field. *)
Definition may_split (maxsplit : option nat) : bool :=
  match maxsplit with
  | Some O => false
  | _ => true
  end.

Definition after_split (maxsplit : option nat) : option nat :=
  match maxsplit with
  | Some n => Some (Nat.pred n)
  | None => None
  end.

Fixpoint str_split (sep : ascii) (maxsplit : option nat) (s : string)
  : list string :=
  match s with
  | EmptyString => [EmptyString]
  | String c s' =>
      if may_split maxsplit && Ascii.eqb c sep
      then EmptyString :: str_split sep (after_split maxsplit) s'
      else match str_split sep maxsplit s' with
           | field :: fields => String c field :: fields
           | [] => [String c EmptyString]
           end
  end.

(** [l[i]] on a list, for a non-negative literal index *)
Definition list_getitem {A : Type} (l : list A) (i : nat) : result A :=
  match nth_error l i with
  | Some a => Ok a
  | None => Raise (Exn IndexError "list index out of range")
  end.

(** Truthiness of an optional string: [None] and [""] are falsy. *)
Definition truthy (o : option string) : bool :=
  match o with
  | None => false
  | Some s => negb (String.eqb s "")
  end.

(** *** [collections.deque(maxlen=n)] *)

Record deque (A : Type) : Type := Deque { items : list A; maxlen : nat }.
Arguments Deque {A} items maxlen.
Arguments items {A} d.
Arguments maxlen {A} d.

Definition deque_new {A : Type} (n : nat) : deque A := Deque [] n.

(** [d.append(x)]: the item is added on the right and, when the deque has
    grown past [maxlen], one item is dropped from the left. *)
Definition deque_append {A : Type} (d : deque A) (x : A) : deque A :=
  let grown := items d ++ [x] in
  if (maxlen d <? length grown)%nat
  then Deque (tl grown) (maxlen d)
  else Deque grown (maxlen d).

(** The last [n] items of a list, and the bound every deque respects. *)
Definition lastn {A : Type} (n : nat) (l : list A) : list A :=
  skipn (length l - n) l.

Definition bounded {A : Type} (d : deque A) : Prop :=
  (length (items d) <= maxlen d)%nat.

(** [not d] *)
Definition deque_is_empty {A : Type} (d : deque A) : bool :=
  match items d with [] => true | _ :: _ => false end.

(** [d[lo:hi]]: a deque accepts integer subscripts only, so subscripting it
    with a slice object raises [TypeError], whatever the bounds. *)
Definition deque_getitem_slice {A : Type} (d : deque A) (lo hi : option Z)
  : result (list A) :=
  Raise (Exn TypeError "sequence index must be integer, not 'slice'").

(** *** Dynamic values, as far as [json.dumps] sees them *)

Inductive value : Type :=
  | VNone
  | VInt (z : Z)
  | VFloat (q : Q)
  | VStr (s : string)
  | VList (l : list value)
  | VDict (kvs : list (string * value)).

(** [d.get(k)] on a dict literal *)
Fixpoint dict_get (k : string) (kvs : list (string * value)) : option value :=
  match kvs with
  | [] => None
  | (k', v) :: rest => if String.eqb k k' then Some v else dict_get k rest
  end.

(** The text produced by [json.dumps(v)], kept abstract as the encoded
    value; every [value] above is JSON-serialisable. *)
Inductive json : Type := JsonOf (v : value).

Definition json_dumps (v : value) : result json := Ok (JsonOf v).

(** [x < y] on floats *)
Definition Qltb (x y : Q) : bool := negb (Qle_bool y x).

(** [sum(1 for s in l if p(s))] *)
Definition count_if {A : Type} (p : A -> bool) (l : list A) : Z :=
  Z.of_nat (length (filter p l)).

(** [numpy.average] of a non-empty sequence of floats: the sum over the
    length.  (On an empty sequence numpy answers [nan] with a warning; the
    only call site sits behind an emptiness test.) *)
Definition np_average (l : list Q) : Q :=
  (fold_right Qplus 0 l / inject_Z (Z.of_nat (length l)))%Q.

End Py.

Import Py.
Open Scope py_scope.

(* ================================================================== *)
(** ** svm.py *)
(* ================================================================== *)

Module Svm.

(** What the process writes to standard output. *)
Inductive stdout_line : Type :=
  | PrintStored (user channel message50 : string)
  | PrintSentiment (label : string) (score : Q)
  | PrintProcessError (e : exn)
  | PrintParseError (e : exn)
  | PrintIncoming (count : Z) (user channel message : string)
  | PrintConnectionClosed.

(** *** AnonymousTwitchReader.parse_irc_message *)

(** The body of the [try] block; [Ok None] stands for falling out of the
    nested [if]s without reaching the [return]. *)
Definition parse_irc_message_try (raw_message : string)
  : result (option (string * string * string)) :=
  if str_in "PRIVMSG" raw_message && negb (startswith "PING" raw_message) then
    let parts := str_split " "%char (Some 3%nat) raw_message in
    if (4 <=? length parts)%nat then
      user_part <- list_getitem parts 0 ;;
      if startswith ":" user_part then
        user <- list_getitem (str_split "!"%char None (str_tail user_part)) 0 ;;
        channel <- list_getitem parts 2 ;;
        let channel :=
          if startswith "#" channel then str_tail channel else channel in
        message <- list_getitem parts 3 ;;
        let message :=
          if startswith ":" message then str_tail message else message in
        Ok (Some (user, channel, message))
      else Ok None
    else Ok None
  else Ok None.

Definition triple : Type := (option string * option string * option string)%type.

Definition no_event : triple := (None, None, None).

(** [parse_irc_message]: the returned triple and what was printed. *)
Definition parse_irc_message (raw_message : string) : triple * list stdout_line :=
  match parse_irc_message_try raw_message with
  | Ok (Some (user, channel, message)) =>
      ((Some user, Some channel, Some message), [])
  | Ok None => (no_event, [])
  | Raise e => (no_event, [PrintParseError e])
  end.

(** *** The state a SentimentClassifier works on *)

(** An item of [recent_messages]: the dict literal of [process_message]. *)
Record CacheEntry : Type := {
  user : string;
  channel : string;
  message : string;
  sentiment : Q;
  timestamp : string
}.

(** The instance attributes.  The two unpickled model objects are used in
    one expression only, [classifier.predict(vectorizer.transform([m]))[0]],
    and are kept as that function from the text to a label. *)
Record SentimentClassifier : Type := {
  predict_label : string -> result string;
  recent_messages : deque CacheEntry;
  sentiment_cache : deque Q
}.

(** Rows of the two tables of [messages.db]. *)
Record message_row : Type := {
  m_id : Z; m_datetime : string; m_user : string; m_channel : string;
  m_message : string
}.

Record sentiment_row : Type := {
  s_id : Z; s_message_id : Z; s_sentiment_score : Q; s_processed_at : string
}.

(** [messages.db]; the [_seq] fields are the AUTOINCREMENT counters. *)
Record database : Type := {
  twitch_messages : list message_row;
  twitch_messages_seq : Z;
  message_sentiments : list sentiment_row;
  message_sentiments_seq : Z
}.

(** Everything a method can read or change. *)
Record world : Type := {
  analyzer : SentimentClassifier;
  db : database;
  stdout : list stdout_line
}.

(** What the environment decides during one [process_message] call: whether
    each of the two database writes fails, and the three clock readings. *)
Record env : Type := {
  message_fault : option exn;
  sentiment_fault : option exn;
  now_message : string;
  now_sentiment : string;
  now_cache : string
}.

(** Stateful computations that may raise; effects made before a raise stay. *)
Definition M (A : Type) : Type := world -> result A * world.

Definition ret {A : Type} (a : A) : M A := fun w => (Ok a, w).

Definition mbind {A B : Type} (m : M A) (k : A -> M B) : M B :=
  fun w =>
    match m w with
    | (Ok a, w') => k a w'
    | (Raise e, w') => (Raise e, w')
    end.

Notation "x <~ m ;; k" := (mbind m (fun x => k))
  (at level 61, m at next level, right associativity) : py_scope.

(** [try: body  except Exception as e: handler(e)] *)
Definition try_except {A : Type} (body : M A) (handler : exn -> M A) : M A :=
  fun w =>
    match body w with
    | (Ok a, w') => (Ok a, w')
    | (Raise e, w') => handler e w'
    end.

Definition lift {A : Type} (r : result A) : M A := fun w => (r, w).

Definition exec {A : Type} (m : M A) (w : world) : world := snd (m w).

Definition print (l : stdout_line) : M unit :=
  fun w => (Ok tt, {| analyzer := analyzer w; db := db w;
                      stdout := stdout w ++ [l] |}).

Definition get_self : M SentimentClassifier := fun w => (Ok (analyzer w), w).

Definition set_self (a : SentimentClassifier) : M unit :=
  fun w => (Ok tt, {| analyzer := a; db := db w; stdout := stdout w |}).

(** *** SentimentClassifier *)

(** [__init__]: the two caches start empty with [maxlen=1000]. *)
Definition SentimentClassifier_init (model : string -> result string)
  : SentimentClassifier :=
  {| predict_label := model;
     recent_messages := deque_new 1000;
     sentiment_cache := deque_new 1000 |}.

(** [init_database] on a fresh file: both tables exist and are empty. *)
Definition empty_database : database :=
  {| twitch_messages := []; twitch_messages_seq := 0;
     message_sentiments := []; message_sentiments_seq := 0 |}.

Definition analyze_sentiment (message : string) : M Q :=
  self <~ get_self ;;
  prediction <~ lift (predict_label self message) ;;
  ret (if String.eqb prediction "pos" then 1%Q else (-1)%Q).

Definition store_message (ev : env) (user channel message : string) : M Z :=
  fun w =>
    match message_fault ev with
    | Some e => (Raise e, w)
    | None =>
        let message_id := (twitch_messages_seq (db w) + 1)%Z in
        let row := {| m_id := message_id; m_datetime := now_message ev;
                      m_user := user; m_channel := channel;
                      m_message := message |} in
        (Ok message_id,
         {| analyzer := analyzer w;
            db := {| twitch_messages := twitch_messages (db w) ++ [row];
                     twitch_messages_seq := message_id;
                     message_sentiments := message_sentiments (db w);
                     message_sentiments_seq := message_sentiments_seq (db w) |};
            stdout := stdout w |})
    end.

Definition store_sentiment (ev : env) (message_id : Z) (sentiment_score : Q)
  : M unit :=
  fun w =>
    match sentiment_fault ev with
    | Some e => (Raise e, w)
    | None =>
        let id := (message_sentiments_seq (db w) + 1)%Z in
        let row := {| s_id := id; s_message_id := message_id;
                      s_sentiment_score := sentiment_score;
                      s_processed_at := now_sentiment ev |} in
        (Ok tt,
         {| analyzer := analyzer w;
            db := {| twitch_messages := twitch_messages (db w);
                     twitch_messages_seq := twitch_messages_seq (db w);
                     message_sentiments := message_sentiments (db w) ++ [row];
                     message_sentiments_seq := id |};
            stdout := stdout w |})
    end.

(** [self.recent_messages.append(entry)] *)
Definition recent_messages_append (entry : CacheEntry) : M unit :=
  self <~ get_self ;;
  set_self {| predict_label := predict_label self;
              recent_messages := deque_append (recent_messages self) entry;
              sentiment_cache := sentiment_cache self |}.

(** [self.sentiment_cache.append(score)] *)
Definition sentiment_cache_append (score : Q) : M unit :=
  self <~ get_self ;;
  set_self {| predict_label := predict_label self;
              recent_messages := recent_messages self;
              sentiment_cache := deque_append (sentiment_cache self) score |}.

(** [process_message]: one [try] block around the three steps and the cache
    update, one handler that prints the error.  The [def] that follows the
    handler in the source only binds a local name and has no effect. *)
Definition process_message (ev : env) (user channel message : string) : M unit :=
  try_except
    (message_id <~ store_message ev user channel message ;;
     sentiment_score <~ analyze_sentiment message ;;
     _ <~ store_sentiment ev message_id sentiment_score ;;
     _ <~ recent_messages_append
            {| user := user; channel := channel; message := message;
               sentiment := sentiment_score; timestamp := now_cache ev |} ;;
     _ <~ sentiment_cache_append sentiment_score ;;
     let sentiment_label :=
       if Qltb 0 sentiment_score then "POSITIVE" else "NEGATIVE" in
     _ <~ print (PrintStored user channel (str_take 50 message)) ;;
     print (PrintSentiment sentiment_label sentiment_score))
    (fun e => print (PrintProcessError e)).

(** *** get_average_sentiment

    In the source this [def] sits inside the body of [process_message],
    after the [try] statement: it is a local function of that method and not
    an attribute of the class.  [get_average_sentiment] below is its body;
    [SentimentClassifier_attributes] is what attribute lookup on an instance
    finds. *)

Definition bucket_positive (s : Q) : bool := Qltb (1 # 10) s.
Definition bucket_neutral (s : Q) : bool :=
  Qle_bool (- (1 # 10)) s && Qle_bool s (1 # 10).
Definition bucket_negative (s : Q) : bool := Qltb s (- (1 # 10)).

Definition sentiment_distribution (recent_sentiments : list Q) : value :=
  VDict [("positive", VInt (count_if bucket_positive recent_sentiments));
         ("neutral", VInt (count_if bucket_neutral recent_sentiments));
         ("negative", VInt (count_if bucket_negative recent_sentiments))].

Definition get_average_sentiment
  (self : SentimentClassifier) (n_messages : Z) (utcnow : string)
  : result value :=
  if deque_is_empty (sentiment_cache self) then
    Ok (VDict [("average_sentiment", VInt 0);
               ("message_count", VInt 0);
               ("timestamp", VStr utcnow)])
  else
    recent_sentiments <-
      deque_getitem_slice (sentiment_cache self) (Some (- n_messages)%Z) None ;;
    let avg_sentiment := np_average recent_sentiments in
    Ok (VDict [("message", VList (map VFloat recent_sentiments));
               ("message_count", VInt (Z.of_nat (length recent_sentiments)));
               ("timestamp", VStr utcnow);
               ("sentiment_distribution",
                sentiment_distribution recent_sentiments)]).

(** Names bound by [self.x = ...] in [__init__] and by the [def]s at class
    level. *)
Definition SentimentClassifier_attributes : list string :=
  ["vectorizer"; "classifier"; "recent_messages"; "sentiment_cache"; "lock";
   "__init__"; "init_database"; "analyze_sentiment"; "store_message";
   "store_sentiment"; "process_message"].

Definition hasattr (name : string) : bool :=
  existsb (String.eqb name) SentimentClassifier_attributes.

(** [analyzer.get_average_sentiment(n)] as a caller writes it: the attribute
    is looked up first. *)
Definition call_get_average_sentiment
  (self : SentimentClassifier) (n_messages : Z) (utcnow : string)
  : result value :=
  if hasattr "get_average_sentiment"
  then get_average_sentiment self n_messages utcnow
  else Raise (Exn AttributeError
    "'SentimentClassifier' object has no attribute 'get_average_sentiment'").

(** *** AnonymousTwitchReader: the listen loop *)

Record AnonymousTwitchReader : Type := {
  channels : list string;
  message_count : Z
}.

(** The reader, the shared world and what was sent on the websocket. *)
Record session : Type := {
  reader : AnonymousTwitchReader;
  shared : world;
  sent : list string
}.

(** What the environment decides while one inbound line is handled. *)
Record line_env : Type := {
  send_fault : option exn;
  process_env : env
}.

Inductive loop_status : Type := Listening | Disconnected.

Definition PONG : string := "PONG :tmi.twitch.tv".

(** One iteration of [async for raw_message in websocket]. *)
Definition listen_step (le : line_env) (raw_message : string) (s : session)
  : loop_status * session :=
  if str_in "PING" raw_message then
    let s' := {| reader := reader s; shared := shared s;
                 sent := sent s ++ [PONG] |} in
    match send_fault le with
    | None => (Listening, s')
    | Some _ =>
        (Disconnected,
         {| reader := reader s;
            shared := exec (print PrintConnectionClosed) (shared s);
            sent := sent s' |})
    end
  else
    let '((user, channel, message), printed) := parse_irc_message raw_message in
    let w := {| analyzer := analyzer (shared s); db := db (shared s);
                stdout := stdout (shared s) ++ printed |} in
    if truthy user && truthy channel && truthy message then
      let count := (message_count (reader s) + 1)%Z in
      let u := match user with Some x => x | None => "" end in
      let c := match channel with Some x => x | None => "" end in
      let m := match message with Some x => x | None => "" end in
      (Listening,
       {| reader := {| channels := channels (reader s); message_count := count |};
          shared := exec (_ <~ print (PrintIncoming count u c m) ;;
                          process_message (process_env le) u c m) w;
          sent := sent s |})
    else
      (Listening, {| reader := reader s; shared := w; sent := sent s |}).

(** The loop over the lines the websocket delivers; it stops at the first
    iteration that leaves [Listening]. *)
Fixpoint listen (lines : list (line_env * string)) (s : session)
  : loop_status * session :=
  match lines with
  | [] => (Listening, s)
  | (le, raw_message) :: rest =>
      match listen_step le raw_message s with
      | (Listening, s') => listen rest s'
      | (Disconnected, s') => (Disconnected, s')
      end
  end.

(** *** Runs of the ingestion path *)

(** One call of [process_message] as the listen loop issues it. *)
Definition call : Type := (env * (string * string * string))%type.

Definition run_call (w : world) (k : call) : world :=
  let '(ev, (user, channel, message)) := k in
  exec (process_message ev user channel message) w.

Definition run (calls : list call) (w : world) : world :=
  fold_left run_call calls w.

(** The call reaches the cache update: neither write fails and the model
    answers. *)
Definition succeeds (model : string -> result string) (k : call) : bool :=
  let '(ev, (_, _, message)) := k in
  match message_fault ev, model message, sentiment_fault ev with
  | None, Ok _, None => true
  | _, _, _ => false
  end.

(** The score and the cache entry of a call that reaches the cache update. *)
Definition score_of (model : string -> result string) (k : call) : Q :=
  let '(_, (_, _, message)) := k in
  match model message with
  | Ok prediction => if String.eqb prediction "pos" then 1%Q else (-1)%Q
  | Raise _ => 0%Q
  end.

Definition entry_of (model : string -> result string) (k : call) : CacheEntry :=
  let '(ev, (user, channel, message)) := k in
  {| user := user; channel := channel; message := message;
     sentiment := score_of model k; timestamp := now_cache ev |}.

(** The cache-update step: both appends. *)
Definition record (a : SentimentClassifier) (entry : CacheEntry) (score : Q)
  : SentimentClassifier :=
  {| predict_label := predict_label a;
     recent_messages := deque_append (recent_messages a) entry;
     sentiment_cache := deque_append (sentiment_cache a) score |}.

(** The cache invariant: both deques are bounded by 1000 and hold the same
    number of items. *)
Definition cache_inv (a : SentimentClassifier) : Prop :=
  maxlen (recent_messages a) = 1000%nat /\
  maxlen (sentiment_cache a) = 1000%nat /\
  length (items (recent_messages a)) = length (items (sentiment_cache a)) /\
  (length (items (sentiment_cache a)) <= 1000)%nat.

(** The process right after start-up. *)
Definition start (model : string -> result string) (d : database) : world :=
  {| analyzer := SentimentClassifier_init model; db := d; stdout := [] |}.

End Svm.

(* ================================================================== *)
(** ** API.py *)
(* ================================================================== *)

Module Api.

Import Svm.

(** What one subscriber's generator does, in order. *)
Inductive stream_event : Type :=
  | Yield (payload : json)        (* [yield f"data: {payload}\n\n"] *)
  | Sleep (seconds : Z).          (* [await asyncio.sleep(seconds)] *)

(** The statements of the [try] block before the sleep; [Ok None] when the
    global [sentiment_analyzer] is [None]. *)
Definition snapshot_payload
  (sentiment_analyzer : option SentimentClassifier) (utcnow : string)
  : result (option json) :=
  match sentiment_analyzer with
  | Some a =>
      sentiment_data <- call_get_average_sentiment a 50 utcnow ;;
      data <- json_dumps sentiment_data ;;
      Ok (Some data)
  | None => Ok None
  end.

Definition error_payload (e : exn) : json :=
  JsonOf (VDict [("error", VStr (exn_str e))]).

(** One iteration of [while True] in [event_stream]. *)
Definition event_stream_tick
  (sentiment_analyzer : option SentimentClassifier) (utcnow : string)
  : list stream_event :=
  match snapshot_payload sentiment_analyzer utcnow with
  | Ok (Some data) => [Yield data; Sleep 5]
  | Ok None => [Sleep 5]
  | Raise e => [Yield (error_payload e); Sleep 10]
  end.

(** The first [length ticks] iterations of the loop; each tick sees the
    global and the clock as they are at that moment. *)
Fixpoint event_stream (ticks : list (option SentimentClassifier * string))
  : list stream_event :=
  match ticks with
  | [] => []
  | (sa, utcnow) :: rest => event_stream_tick sa utcnow ++ event_stream rest
  end.

End Api.

(* ================================================================== *)
(** ** The wire format as the specification words it, and sample inputs *)
(* ================================================================== *)

Module Wire.

(** A chat-post line as the specification describes it,
    [:<user>!<...> <COMMAND> #<channel> :<text>]: four space-separated
    parts, the first starting with [:] and holding a [!], a command word,
    a channel token starting with [#], and a text part starting with [:]. *)
Definition chat_post_shape (line : string) : bool :=
  match str_split " "%char (Some 3%nat) line with
  | [prefix; command; channel; text] =>
      startswith ":" prefix && str_in "!" prefix
      && negb (String.eqb command "")
      && startswith "#" channel && startswith ":" text
  | _ => false
  end.

(** The chat-post line of [user], with the rest of the prefix [host], posted
    to [channel] with text [text]. *)
Definition chat_post_line (user host channel text : string) : string :=
  (":" ++ user ++ "!" ++ host ++ " " ++ "PRIVMSG" ++ " " ++ "#" ++ channel
   ++ " " ++ ":" ++ text)%string.

(** The guards of [parse_irc_message], read off the nested [if]s. *)
Definition accepted (raw_message : string) : bool :=
  str_in "PRIVMSG" raw_message && negb (startswith "PING" raw_message)
  && (4 <=? length (str_split " "%char (Some 3%nat) raw_message))%nat
  && startswith ":" (hd "" (str_split " "%char (Some 3%nat) raw_message)).

(** [c] occurs in [s]. *)
Fixpoint has_char (c : ascii) (s : string) : bool :=
  match s with
  | EmptyString => false
  | String c' s' => Ascii.eqb c' c || has_char c s'
  end.

(** The bucket counts of a snapshot, where the non-empty branch of
    [get_average_sentiment] puts them. *)
Definition snapshot_count (bucket : string) (snapshot : value) : option value :=
  match snapshot with
  | VDict kvs =>
      match dict_get "sentiment_distribution" kvs with
      | Some (VDict counts) => dict_get bucket counts
      | _ => None
      end
  | _ => None
  end.

Definition snapshot_field (key : string) (snapshot : value) : option value :=
  match snapshot with
  | VDict kvs => dict_get key kvs
  | _ => None
  end.

End Wire.

Module Sample.

Import Svm.

(** A model that labels every text [pos]. *)
Definition always_pos : string -> result string := fun _ => Ok "pos".

Definition fresh : world := start always_pos empty_database.

Definition sqlite_locked : exn := Exn SqliteError "database is locked".

Definition healthy : env :=
  {| message_fault := None; sentiment_fault := None;
     now_message := "t1"; now_sentiment := "t2"; now_cache := "t3" |}.

(** The message insert goes through, the sentiment insert fails. *)
Definition sentiment_insert_fails : env :=
  {| message_fault := None; sentiment_fault := Some sqlite_locked;
     now_message := "t1"; now_sentiment := "t2"; now_cache := "t3" |}.

Definition great_stream : call := (healthy, ("bob", "c1", "great stream")).

(** 1001 healthy calls, told apart by the clock reading of the cache entry. *)
Definition numbered_call (i : nat) : call :=
  ({| message_fault := None; sentiment_fault := None;
      now_message := "t1"; now_sentiment := "t2";
      now_cache := NilEmpty.string_of_uint (Nat.to_uint i) |},
   ("bob", "c1", "great stream")).

Definition many_calls : list call := map numbered_call (seq 0 1001).

(** An analyzer whose cache holds one score. *)
Definition one_score : SentimentClassifier :=
  analyzer (run [great_stream] fresh).

Definition quiet_send : line_env :=
  {| send_fault := None; process_env := healthy |}.

Definition opening : session :=
  {| reader := {| channels := ["somechannel"]; message_count := 0 |};
     shared := fresh; sent := [] |}.

Definition alice_line : string :=
  ":alice!alice@x PRIVMSG #somechannel :hello world".

(** A chat post whose text holds the keepalive word. *)
Definition alice_ping_line : string :=
  ":alice!alice@x PRIVMSG #somechannel :PING me".

(** A line with none of [!], [#] or a text colon, and a server notice. *)
Definition stray_line : string := ":foo bar baz PRIVMSG".
Definition notice_line : string :=
  ":tmi.twitch.tv NOTICE #somechannel :PRIVMSG is not available".

End Sample.

(* ================================================================== *)
(** ** The database as the ingestion path leaves it *)
(* ================================================================== *)

Module Store.

Import Svm.

Definition message_ids (d : database) : list Z := map m_id (twitch_messages d).

Definition sentiment_ids (d : database) : list Z :=
  map s_id (message_sentiments d).

(** The [message_id] column of [message_sentiments]. *)
Definition sentiment_refs (d : database) : list Z :=
  map s_message_id (message_sentiments d).

(** The two rows [process_message] writes. *)
Definition new_message_row (d : database) (k : call) : message_row :=
  let '(ev, (user, channel, message)) := k in
  {| m_id := (twitch_messages_seq d + 1)%Z; m_datetime := now_message ev;
     m_user := user; m_channel := channel; m_message := message |}.

Definition new_sentiment_row
  (model : string -> result string) (d : database) (k : call) : sentiment_row :=
  let '(ev, _) := k in
  {| s_id := (message_sentiments_seq d + 1)%Z;
     s_message_id := (twitch_messages_seq d + 1)%Z;
     s_sentiment_score := score_of model k;
     s_processed_at := now_sentiment ev |}.

(** The message insert of the call goes through. *)
Definition inserts (k : call) : bool :=
  match message_fault (fst k) with
  | None => true
  | Some _ => false
  end.

(** The exception [process_message] meets first, if any: the steps run in
    the order message insert, model, sentiment insert. *)
Definition first_fault (model : string -> result string) (k : call)
  : option exn :=
  let '(ev, (_, _, message)) := k in
  match message_fault ev with
  | Some e => Some e
  | None =>
      match model message with
      | Raise e => Some e
      | Ok _ => sentiment_fault ev
      end
  end.

(** What the rows of the database know about ids: ids grow along each
    table and stay below the AUTOINCREMENT counter, and the references of
    the sentiment rows grow and point at stored messages. *)
Definition db_inv (d : database) : Prop :=
  StronglySorted Z.lt (message_ids d)
  /\ Forall (fun i => (i <= twitch_messages_seq d)%Z) (message_ids d)
  /\ StronglySorted Z.lt (sentiment_ids d)
  /\ Forall (fun i => (i <= message_sentiments_seq d)%Z) (sentiment_ids d)
  /\ StronglySorted Z.lt (sentiment_refs d)
  /\ Forall (fun i => In i (message_ids d)) (sentiment_refs d).

(** The score cache holds the scores of the newest 1000 sentiment rows. *)
Definition mirrors (w : world) : Prop :=
  items (sentiment_cache (analyzer w))
  = lastn 1000 (map s_sentiment_score (message_sentiments (db w))).

(** The two caches agree index by index on the score. *)
Definition aligned (a : SentimentClassifier) : Prop :=
  map sentiment (items (recent_messages a)) = items (sentiment_cache a).

(** The two scores [analyze_sentiment] can return. *)
Definition unit_score (s : Q) : Prop := s = 1%Q \/ s = (-1)%Q.

End Store.

(* ================================================================== *)
(** ** Lines as the listen loop meets them *)
(* ================================================================== *)

Module Loop.

Import Svm.

(** The line holds the keepalive word. *)
Definition is_keepalive (l : line_env * string) : bool := str_in "PING" (snd l).

(** A send made while this line is handled goes through. *)
Definition sends_ok (l : line_env * string) : bool :=
  match send_fault (fst l) with
  | None => true
  | Some _ => false
  end.

End Loop.

(* ================================================================== *)
(** ** svm.py: start-up of the reader *)
(* ================================================================== *)

Module Startup.

Import Svm.

(** Strings here are sequences of bytes; [strip] and [lower] are modelled on
    the ASCII range, where Python's whitespace is [\t \n \v \f \r], the four
    separators 28..31 and the space, and [lower] moves [A-Z] to [a-z]. *)
Definition is_space (c : ascii) : bool :=
  let n := nat_of_ascii c in
  ((9 <=? n) && (n <=? 13) || (28 <=? n) && (n <=? 32))%nat.

Definition is_upper (c : ascii) : bool :=
  let n := nat_of_ascii c in ((65 <=? n) && (n <=? 90))%nat.

Definition lower_ascii (c : ascii) : ascii :=
  if is_upper c then ascii_of_nat (nat_of_ascii c + 32) else c.

(** [s.lower()] *)
Fixpoint str_lower (s : string) : string :=
  match s with
  | EmptyString => EmptyString
  | String c s' => String (lower_ascii c) (str_lower s')
  end.

(** [s.lstrip()], [s.rstrip()], [s.strip()] *)
Fixpoint str_lstrip (s : string) : string :=
  match s with
  | EmptyString => EmptyString
  | String c s' => if is_space c then str_lstrip s' else s
  end.

Fixpoint str_rstrip (s : string) : string :=
  match s with
  | EmptyString => EmptyString
  | String c s' =>
      match str_rstrip s' with
      | EmptyString => if is_space c then EmptyString else String c EmptyString
      | String d t => String c (String d t)
      end
  end.

Definition str_strip (s : string) : string := str_rstrip (str_lstrip s).

(** The string starts, or ends, with whitespace. *)
Definition leading_space (s : string) : bool :=
  match s with
  | EmptyString => false
  | String c _ => is_space c
  end.

Fixpoint trailing_space (s : string) : bool :=
  match s with
  | EmptyString => false
  | String c EmptyString => is_space c
  | String _ s' => trailing_space s'
  end.

(** Every character of [s] satisfies [p]. *)
Fixpoint all_chars (p : ascii -> bool) (s : string) : bool :=
  match s with
  | EmptyString => true
  | String c s' => p c && all_chars p s'
  end.

(** [[ch.strip() for ch in channels_str.split(',') if ch.strip()]] *)
Definition parse_channels (channels_str : string) : list string :=
  map str_strip
    (filter (fun ch => negb (String.eqb (str_strip ch) ""))
       (str_split ","%char None channels_str)).

(** [AnonymousTwitchReader.__init__]; the analyzer it keeps a reference to
    is the one of the shared world. *)
Definition AnonymousTwitchReader_init (channels : list string)
  : AnonymousTwitchReader :=
  {| channels := map str_lower channels; message_count := 0 |}.

(** What [main] prints before the reader runs. *)
Inductive main_line : Type :=
  | PrintBanner
  | PrintVectorizerMissing
  | PrintClassifierMissing
  | PrintModelFilesFound
  | PrintChannelNotSet
  | PrintChannels (channels : list string)
  | PrintInitializing.

(** [main] up to the construction of the reader: the two model files must
    exist and [TWITCH_CHANNEL] must be a non-empty string; [None] is an
    early [return]. *)
Definition main_reader
  (vectorizer_exists classifier_exists : bool) (TWITCH_CHANNEL : option string)
  : list main_line * option AnonymousTwitchReader :=
  if negb vectorizer_exists then ([PrintBanner; PrintVectorizerMissing], None)
  else if negb classifier_exists then ([PrintBanner; PrintClassifierMissing], None)
  else
    let channels_str :=
      match TWITCH_CHANNEL with Some v => v | None => "" end in
    if String.eqb channels_str "" then
      ([PrintBanner; PrintModelFilesFound; PrintChannelNotSet], None)
    else
      let channels := parse_channels channels_str in
      ([PrintBanner; PrintModelFilesFound; PrintChannels channels;
        PrintInitializing],
       Some (AnonymousTwitchReader_init channels)).

(** *** connect_and_listen *)

(** What [connect_and_listen] prints before the loop, and when it gives up
    before the loop. *)
Inductive console_line : Type :=
  | PrintConnecting
  | PrintConnected
  | PrintJoined (channel : string)
  | PrintListening
  | PrintClosedByTwitch
  | PrintConnectionError (e : exn).

(** The [except] clause an exception lands in. *)
Definition on_error (e : exn) : console_line :=
  match exn_cls e with
  | ConnectionClosed => PrintClosedByTwitch
  | _ => PrintConnectionError e
  end.

(** What the environment decides before the loop: whether the connection
    comes up and, for the i-th send, whether it raises. *)
Record handshake_env : Type := {
  connect_fault : option exn;
  login_fault : nat -> option exn
}.

Definition login_lines : list string :=
  ["PASS oauth:justinfan12345"; "NICK justinfan12345"].

Definition join_line (channel : string) : string := ("JOIN #" ++ channel)%string.

(** Everything sent before the loop when nothing fails. *)
Definition handshake_lines (r : AnonymousTwitchReader) : list string :=
  login_lines ++ map join_line (channels r).

(** The sends in order, each with what is printed after it, until one
    raises: what was handed to [send], what was printed, the exception. *)
Fixpoint send_each (faults : nat -> option exn) (i : nat)
  (commands : list (string * list console_line))
  : list string * list console_line * option exn :=
  match commands with
  | [] => ([], [], None)
  | (command, printed) :: rest =>
      match faults i with
      | Some e => ([command], [], Some e)
      | None =>
          let '(sent_rest, printed_rest, r) := send_each faults (S i) rest in
          (command :: sent_rest, printed ++ printed_rest, r)
      end
  end.

Definition handshake_commands (r : AnonymousTwitchReader)
  : list (string * list console_line) :=
  map (fun l => (l, [])) login_lines
  ++ map (fun ch => (join_line ch, [PrintJoined ch])) (channels r).

Record connection : Type := {
  console : list console_line;
  status : loop_status;
  final : session
}.

Definition connect_and_listen
  (he : handshake_env) (lines : list (line_env * string))
  (r : AnonymousTwitchReader) (w : world) : connection :=
  match connect_fault he with
  | Some e =>
      {| console := [PrintConnecting; on_error e]; status := Disconnected;
         final := {| reader := r; shared := w; sent := [] |} |}
  | None =>
      match send_each (login_fault he) 0 (handshake_commands r) with
      | (sent0, printed, Some e) =>
          {| console := [PrintConnecting; PrintConnected] ++ printed
                        ++ [on_error e];
             status := Disconnected;
             final := {| reader := r; shared := w; sent := sent0 |} |}
      | (sent0, printed, None) =>
          let '(st, s) :=
            listen lines {| reader := r; shared := w; sent := sent0 |} in
          {| console := [PrintConnecting; PrintConnected] ++ printed
                        ++ [PrintListening];
             status := st; final := s |}
      end
  end.

End Startup.

(* ================================================================== *)
(** ** API.py: the statistics endpoint *)
(* ================================================================== *)

Module Endpoints.

Import Svm.

(** The answer of a route: the returned body, or [HTTPException(500)]. *)
Inductive http_result : Type :=
  | Http200 (body : value)
  | Http500 (detail : string).

(** [GET /stats]: the rows of the count query over [twitch_messages], one
    row of one column; any exception of the query becomes a 500. *)
Definition get_dashboard_stats (query_fault : option exn) (d : database)
  : http_result :=
  match query_fault with
  | Some e => Http500 ("Error retrieving stats: " ++ exn_str e)%string
  | None =>
      Http200 (VList [VList [VInt (Z.of_nat (length (twitch_messages d)))]])
  end.

(** The exception of a call to a method the class does not have. *)
Definition no_such_method : exn :=
  Exn AttributeError
    "'SentimentClassifier' object has no attribute 'get_average_sentiment'".

(** What one tick of the stream does when it depends on nothing but the
    presence of the analyzer. *)
Definition tick_events (sa : option SentimentClassifier)
  : list Api.stream_event :=
  match sa with
  | Some _ => [Api.Yield (Api.error_payload no_such_method); Api.Sleep 10]
  | None => [Api.Sleep 5]
  end.

End Endpoints.

Module Cases.

Import Svm.

(** A send that finds the connection closed. *)
Definition broken_send : line_env :=
  {| send_fault := Some (Exn ConnectionClosed "no close frame received or sent");
     process_env := Sample.healthy |}.

(** A model that answers by the text and raises on one input. *)
Definition moody : string -> result string :=
  fun text =>
    if String.eqb text "boom" then Raise (Exn ModelError "cannot vectorize")
    else if str_in "great" text then Ok "pos" else Ok "neg".

Definition insert_fails : env :=
  {| message_fault := Some Sample.sqlite_locked; sentiment_fault := None;
     now_message := "t1"; now_sentiment := "t2"; now_cache := "t3" |}.

(** Five calls: recorded, lost at the sentiment insert, lost at the model,
    lost at the message insert, recorded. *)
Definition mixed_calls : list call :=
  [(Sample.healthy, ("bob", "c1", "great stream"));
   (Sample.sentiment_insert_fails, ("bob", "c1", "this is terrible"));
   (Sample.healthy, ("carl", "c1", "boom"));
   (insert_fails, ("carl", "c1", "ok"));
   (Sample.healthy, ("dana", "c1", "not good"))].

Definition moody_start : world := start moody empty_database.

(** Twenty euro signs: 20 characters, 60 bytes. *)
Definition euro : string :=
  String (ascii_of_nat 226) (String (ascii_of_nat 130)
    (String (ascii_of_nat 172) EmptyString)).

Definition euros : string := String.concat "" (repeat euro 20).

(** A connection that comes up and never fails during the handshake. *)
Definition calm : Startup.handshake_env :=
  {| Startup.connect_fault := None; Startup.login_fault := fun _ => None |}.

End Cases.

(* ================================================================== *)
(** ** Properties *)
(* ================================================================== *)

Import Svm Api Wire.

(** *** Bounded deques *)

Section Deque.

Context {A : Type}.

Lemma lastn_length (n : nat) (l : list A) :
  length (lastn n l) = Nat.min n (length l).
Proof. unfold lastn. rewrite length_skipn. lia. Qed.

Lemma lastn_all (n : nat) (l : list A) :
  (length l <= n)%nat -> lastn n l = l.
Proof.
  intros Hle. unfold lastn.
  replace (length l - n)%nat with 0%nat by lia. reflexivity.
Qed.

Lemma lastn_app_lastn (n : nat) (l xs : list A) :
  lastn n (lastn n l ++ xs) = lastn n (l ++ xs).
Proof.
  unfold lastn at 1 3. rewrite !length_app, lastn_length.
  unfold lastn. rewrite !skipn_app, skipn_skipn, length_skipn.
  f_equal; f_equal; lia.
Qed.

Lemma deque_append_maxlen (d : deque A) (x : A) :
  maxlen (deque_append d x) = maxlen d.
Proof. unfold deque_append. destruct (_ <? _)%nat; reflexivity. Qed.

Lemma deque_append_items (d : deque A) (x : A) :
  bounded d ->
  items (deque_append d x) = lastn (maxlen d) (items d ++ [x]).
Proof.
  unfold bounded, deque_append, lastn. intros Hb.
  rewrite length_app. simpl length.
  destruct (Nat.ltb_spec (maxlen d) (length (items d) + 1)) as [Hlt | Hge]; simpl.
  - replace (length (items d) + 1 - maxlen d)%nat with 1%nat by lia.
    reflexivity.
  - replace (length (items d) + 1 - maxlen d)%nat with 0%nat by lia.
    reflexivity.
Qed.

Lemma deque_append_length (d : deque A) (x : A) :
  bounded d ->
  length (items (deque_append d x))
  = Nat.min (maxlen d) (S (length (items d))).
Proof.
  intros Hb. rewrite deque_append_items, lastn_length, length_app by assumption.
  simpl. lia.
Qed.

Lemma deque_append_bounded (d : deque A) (x : A) :
  bounded d -> bounded (deque_append d x).
Proof.
  intros Hb. unfold bounded.
  rewrite deque_append_length, deque_append_maxlen by assumption. lia.
Qed.

End Deque.

(** *** The cache update of [process_message] *)

Lemma process_message_analyzer (ev : env) (u c m : string) (w : world) :
  analyzer (exec (process_message ev u c m) w)
  = if succeeds (predict_label (analyzer w)) (ev, (u, c, m))
    then record (analyzer w)
                (entry_of (predict_label (analyzer w)) (ev, (u, c, m)))
                (score_of (predict_label (analyzer w)) (ev, (u, c, m)))
    else analyzer w.
Proof.
  unfold exec, process_message, try_except, mbind, store_message,
    analyze_sentiment, store_sentiment, succeeds, score_of, entry_of, record.
  destruct (message_fault ev) as [e1 |]; [reflexivity |].
  cbn. unfold lift.
  destruct (predict_label (analyzer w) m) as [p | e2]; [| reflexivity].
  cbn.
  destruct (sentiment_fault ev) as [e3 |]; reflexivity.
Qed.

Lemma run_call_analyzer (w : world) (k : call) :
  analyzer (run_call w k)
  = if succeeds (predict_label (analyzer w)) k
    then record (analyzer w) (entry_of (predict_label (analyzer w)) k)
                (score_of (predict_label (analyzer w)) k)
    else analyzer w.
Proof.
  destruct k as [ev [[u c] m]]. apply process_message_analyzer.
Qed.

Lemma run_call_model (w : world) (k : call) :
  predict_label (analyzer (run_call w k)) = predict_label (analyzer w).
Proof.
  rewrite run_call_analyzer. destruct (succeeds _ k); reflexivity.
Qed.

Lemma cache_inv_init (model : string -> result string) :
  cache_inv (SentimentClassifier_init model).
Proof. unfold cache_inv. cbn. repeat split; lia. Qed.

Lemma cache_inv_record (a : SentimentClassifier) (e : CacheEntry) (s : Q) :
  cache_inv a -> cache_inv (record a e s).
Proof.
  intros (Hm1 & Hm2 & Hlen & Hle). unfold cache_inv, record. cbn.
  rewrite !deque_append_maxlen.
  rewrite !deque_append_length by (unfold bounded; lia).
  rewrite Hm1, Hm2, Hlen. repeat split; lia.
Qed.

Lemma cache_inv_run_call (w : world) (k : call) :
  cache_inv (analyzer w) -> cache_inv (analyzer (run_call w k)).
Proof.
  intros Hinv. rewrite run_call_analyzer.
  destruct (succeeds _ k); [apply cache_inv_record |]; assumption.
Qed.

Lemma cache_inv_run (calls : list call) (w : world) :
  cache_inv (analyzer w) -> cache_inv (analyzer (run calls w)).
Proof.
  revert w. induction calls as [| k calls IH]; intros w Hinv; [assumption |].
  cbn. apply IH, cache_inv_run_call, Hinv.
Qed.

Lemma run_app (xs ys : list call) (w : world) :
  run (xs ++ ys) w = run ys (run xs w).
Proof. apply fold_left_app. Qed.

(** A run of calls that all reach the cache update leaves in each cache the
    last 1000 of what was there followed by what the calls recorded. *)
Lemma run_items (calls : list call) (w : world) :
  cache_inv (analyzer w) ->
  forallb (succeeds (predict_label (analyzer w))) calls = true ->
  items (recent_messages (analyzer (run calls w)))
  = lastn 1000 (items (recent_messages (analyzer w))
                ++ map (entry_of (predict_label (analyzer w))) calls)
  /\ items (sentiment_cache (analyzer (run calls w)))
     = lastn 1000 (items (sentiment_cache (analyzer w))
                   ++ map (score_of (predict_label (analyzer w))) calls).
Proof.
  revert w. induction calls as [| k calls IH]; intros w Hinv Hok.
  - cbn. rewrite !app_nil_r.
    destruct Hinv as (_ & _ & Hlen & Hle).
    rewrite !lastn_all by lia. split; reflexivity.
  - cbn in Hok. apply andb_true_iff in Hok as [Hk Hrest].
    cbn [run fold_left].
    pose proof (cache_inv_run_call w k Hinv) as Hinv'.
    pose proof (run_call_model w k) as Hmodel.
    specialize (IH (run_call w k) Hinv').
    rewrite Hmodel in IH. specialize (IH Hrest).
    destruct IH as [IHm IHs]. unfold run in IHm, IHs. rewrite IHm, IHs.
    rewrite run_call_analyzer, Hk. cbn [record recent_messages sentiment_cache].
    destruct Hinv as (Hm1 & Hm2 & Hlen & Hle).
    rewrite !deque_append_items by (unfold bounded; lia).
    rewrite Hm1, Hm2, !lastn_app_lastn, <- !app_assoc. split; reflexivity.
Qed.

(** C8: in every state the ingestion path can reach from start-up, that is
    after every cache update of [process_message] (and after every call that
    fails before it), [recent_messages] and [sentiment_cache] hold the same
    number of items, that number is at most 1000, and both deques still have
    capacity 1000. *)
Theorem caches_equal_length_bounded
  (model : string -> result string) (d : database) (calls : list call) :
  let a := analyzer (run calls (start model d)) in
  length (items (recent_messages a)) = length (items (sentiment_cache a))
  /\ (length (items (recent_messages a)) <= 1000)%nat
  /\ (length (items (sentiment_cache a)) <= 1000)%nat
  /\ maxlen (recent_messages a) = 1000%nat
  /\ maxlen (sentiment_cache a) = 1000%nat.
Proof.
  intros a.
  assert (Hinv : cache_inv a).
  { apply cache_inv_run. apply cache_inv_init. }
  destruct Hinv as (Hm1 & Hm2 & Hlen & Hle).
  repeat split; try assumption. lia.
Qed.

(** C4: take any state of the caches within capacity and 1001 calls of
    [process_message] that each reach the cache update.  At no point of the
    run does either cache hold more than 1000 items; at the end each cache
    holds exactly the items recorded by calls 2..1001 in order, so the newest
    entry sits at the right end and the entry recorded first has been
    evicted (it is in the cache only if a later call recorded an equal one). *)
Theorem fifo_eviction (w : world) (calls : list call) :
  cache_inv (analyzer w) ->
  length calls = 1001%nat ->
  forallb (succeeds (predict_label (analyzer w))) calls = true ->
  let entries := map (entry_of (predict_label (analyzer w))) calls in
  let scores := map (score_of (predict_label (analyzer w))) calls in
  let a' := analyzer (run calls w) in
  (forall k,
     (length (items (recent_messages (analyzer (run (firstn k calls) w))))
      <= 1000)%nat
     /\ (length (items (sentiment_cache (analyzer (run (firstn k calls) w))))
         <= 1000)%nat)
  /\ items (recent_messages a') = tl entries
  /\ items (sentiment_cache a') = tl scores
  /\ nth_error (items (recent_messages a')) 999 = nth_error entries 1000
  /\ (forall newest, nth_error entries 1000 = Some newest ->
        In newest (items (recent_messages a')))
  /\ (forall oldest, nth_error entries 0 = Some oldest ->
        NoDup entries -> ~ In oldest (items (recent_messages a'))).
Proof.
  intros Hinv Hlen Hok entries scores a'.
  destruct (run_items calls w Hinv Hok) as [Hm Hs].
  fold entries in Hm. fold scores in Hs. fold a' in Hm, Hs.
  assert (Hle : (length (items (recent_messages (analyzer w))) <= 1000)%nat)
    by (destruct Hinv as (_ & _ & Hl & Hb); lia).
  assert (Hle' : (length (items (sentiment_cache (analyzer w))) <= 1000)%nat)
    by (destruct Hinv as (_ & _ & Hl & Hb); lia).
  assert (He : length entries = 1001%nat) by (unfold entries; now rewrite length_map).
  assert (Hsc : length scores = 1001%nat) by (unfold scores; now rewrite length_map).
  assert (Htl : forall (B : Type) (old xs : list B),
             (length old <= 1000)%nat -> length xs = 1001%nat ->
             lastn 1000 (old ++ xs) = tl xs).
  { intros B old xs Ho Hx. unfold lastn. rewrite length_app, Hx.
    replace (length old + 1001 - 1000)%nat with (length old + 1)%nat by lia.
    rewrite skipn_app, skipn_all2 by lia.
    replace (length old + 1 - length old)%nat with 1%nat by lia.
    destruct xs; reflexivity. }
  assert (Hitems : items (recent_messages a') = tl entries).
  { rewrite Hm. apply Htl; assumption. }
  split; [| split; [| split; [| split; [| split]]]].
  - intros k.
    pose proof (cache_inv_run (firstn k calls) w Hinv) as (_ & _ & Hl & Hb).
    lia.
  - exact Hitems.
  - rewrite Hs. apply Htl; assumption.
  - rewrite Hitems. destruct entries; reflexivity.
  - intros newest Hn. rewrite Hitems.
    destruct entries as [| e0 rest]; [discriminate |].
    apply (nth_error_In rest 999). exact Hn.
  - intros oldest Ho Hnd. rewrite Hitems.
    destruct entries as [| e0 rest]; [discriminate |].
    injection Ho as <-. now inversion Hnd.
Qed.

Lemma fifo_eviction_witness :
  items (sentiment_cache (analyzer (run Sample.many_calls Sample.fresh)))
  = tl (map (score_of Sample.always_pos) Sample.many_calls)
  /\ length (items (recent_messages
                      (analyzer (run Sample.many_calls Sample.fresh))))
     = 1000%nat.
Proof.
  assert (H1 : cache_inv (analyzer Sample.fresh))
    by (unfold cache_inv; cbn; repeat split; lia).
  assert (H2 : length Sample.many_calls = 1001%nat) by reflexivity.
  assert (H3 : forallb (succeeds (predict_label (analyzer Sample.fresh)))
                 Sample.many_calls = true) by (vm_compute; reflexivity).
  destruct (fifo_eviction Sample.fresh Sample.many_calls H1 H2 H3)
    as (_ & Hm & Hs & _).
  split; [exact Hs |].
  rewrite Hm. vm_compute. reflexivity.
Defined.

(** C1, as the code has it: when the message insert goes through, the model
    answers and the sentiment insert raises [e], [process_message] catches
    [e], prints it and returns normally; the message row stays in the
    database, no sentiment row is written, and both caches are left exactly
    as they were: nothing is appended for that message. *)
Theorem sentiment_failure_leaves_cache
  (w : world) (ev : env) (u c m : string) (p : string) (e : exn) :
  message_fault ev = None ->
  predict_label (analyzer w) m = Ok p ->
  sentiment_fault ev = Some e ->
  let w' := exec (process_message ev u c m) w in
  fst (process_message ev u c m w) = Ok tt
  /\ analyzer w' = analyzer w
  /\ stdout w' = stdout w ++ [PrintProcessError e]
  /\ map m_message (twitch_messages (db w'))
     = map m_message (twitch_messages (db w)) ++ [m]
  /\ message_sentiments (db w') = message_sentiments (db w).
Proof.
  intros Hmsg Hmodel Hsent.
  unfold exec, process_message, try_except, mbind, store_message,
    analyze_sentiment, store_sentiment, lift.
  rewrite Hmsg. cbn. rewrite Hmodel. cbn. rewrite Hsent. cbn.
  rewrite map_app. repeat split.
Qed.

Lemma sentiment_failure_leaves_cache_witness :
  analyzer (exec (process_message Sample.sentiment_insert_fails
                    "bob" "c1" "great stream") Sample.fresh)
  = analyzer Sample.fresh.
Proof.
  apply (sentiment_failure_leaves_cache Sample.fresh
           Sample.sentiment_insert_fails "bob" "c1" "great stream"
           "pos" Sample.sqlite_locked); reflexivity.
Defined.

(** C1, as stated, fails: on a fresh process the message insert succeeds,
    the sentiment insert raises, and afterwards the message row is stored
    while both caches are still empty, so the aggregate over the cache is
    the empty one. *)
Lemma sentiment_failure_drops_entry :
  let w' := exec (process_message Sample.sentiment_insert_fails
                    "bob" "c1" "great stream") Sample.fresh in
  map m_message (twitch_messages (db w')) = ["great stream"]
  /\ message_sentiments (db w') = []
  /\ items (recent_messages (analyzer w')) = []
  /\ items (sentiment_cache (analyzer w')) = []
  /\ get_average_sentiment (analyzer w') 50 "t4"
     = Ok (VDict [("average_sentiment", VInt 0); ("message_count", VInt 0);
                  ("timestamp", VStr "t4")]).
Proof. vm_compute. repeat split. Qed.

(** *** The aggregator *)

Lemma Qltb_lt (x y : Q) : Qltb x y = true <-> (x < y)%Q.
Proof.
  unfold Qltb. rewrite negb_true_iff. split.
  - intros H. apply Qnot_le_lt. intros Hle.
    apply Qle_bool_iff in Hle. congruence.
  - intros H. destruct (Qle_bool y x) eqn:E; [| reflexivity].
    apply Qle_bool_iff in E. lra.
Qed.

Lemma bucket_positive_iff (s : Q) :
  bucket_positive s = true <-> (1 # 10 < s)%Q.
Proof. apply Qltb_lt. Qed.

Lemma bucket_negative_iff (s : Q) :
  bucket_negative s = true <-> (s < - (1 # 10))%Q.
Proof. apply Qltb_lt. Qed.

Lemma bucket_neutral_iff (s : Q) :
  bucket_neutral s = true <-> (- (1 # 10) <= s /\ s <= 1 # 10)%Q.
Proof.
  unfold bucket_neutral. rewrite andb_true_iff, !Qle_bool_iff. reflexivity.
Qed.

(** Each score falls in exactly one bucket. *)
Lemma bucket_cases (s : Q) :
  (bucket_positive s = true /\ bucket_neutral s = false
   /\ bucket_negative s = false)
  \/ (bucket_positive s = false /\ bucket_neutral s = true
      /\ bucket_negative s = false)
  \/ (bucket_positive s = false /\ bucket_neutral s = false
      /\ bucket_negative s = true).
Proof.
  pose proof (bucket_positive_iff s) as Hp.
  pose proof (bucket_neutral_iff s) as Hn.
  pose proof (bucket_negative_iff s) as Hg.
  destruct (bucket_positive s), (bucket_neutral s), (bucket_negative s);
    try (left; repeat split; reflexivity);
    try (right; left; repeat split; reflexivity);
    try (right; right; repeat split; reflexivity); exfalso.
  - pose proof (proj1 Hp eq_refl). pose proof (proj1 Hg eq_refl). lra.
  - pose proof (proj1 Hp eq_refl). pose proof (proj1 Hn eq_refl). lra.
  - pose proof (proj1 Hp eq_refl). pose proof (proj1 Hg eq_refl). lra.
  - pose proof (proj1 Hn eq_refl). pose proof (proj1 Hg eq_refl). lra.
  - destruct (Qlt_le_dec (1 # 10) s) as [H | H].
    + apply Hp in H. discriminate.
    + destruct (Qlt_le_dec s (- (1 # 10))) as [H' | H'].
      * apply Hg in H'. discriminate.
      * assert (false = true) by (apply Hn; split; assumption). discriminate.
Qed.

Lemma bucket_counts_total (l : list Q) :
  (count_if bucket_positive l + count_if bucket_neutral l
   + count_if bucket_negative l)%Z = Z.of_nat (length l).
Proof.
  unfold count_if. induction l as [| s l IH]; [reflexivity |].
  cbn [filter length].
  destruct (bucket_cases s) as [(-> & -> & ->) | [(-> & -> & ->) | (-> & -> & ->)]];
    cbn [length]; lia.
Qed.


(** On a non-empty cache the body of [get_average_sentiment] stops at the
    slice of the deque. *)
Lemma get_average_sentiment_nonempty
  (self : SentimentClassifier) (n : Z) (utcnow : string) :
  deque_is_empty (sentiment_cache self) = false ->
  get_average_sentiment self n utcnow
  = Raise (Exn TypeError "sequence index must be integer, not 'slice'").
Proof.
  intros H. unfold get_average_sentiment. rewrite H. reflexivity.
Qed.

(** No instance has a [get_average_sentiment] attribute. *)
Lemma call_get_average_sentiment_raises
  (self : SentimentClassifier) (n : Z) (utcnow : string) :
  call_get_average_sentiment self n utcnow
  = Raise (Exn AttributeError
      "'SentimentClassifier' object has no attribute 'get_average_sentiment'").
Proof. reflexivity. Qed.

(** C2, the code at a cache holding the single score 1.0 and window 50: the
    body of [get_average_sentiment] raises [TypeError] at the slice and
    returns no snapshot, and the call as [API.py] writes it raises
    [AttributeError] before the body is entered. *)
Theorem aggregate_nonempty_raises :
  items (sentiment_cache Sample.one_score) = [1%Q]
  /\ get_average_sentiment Sample.one_score 50 "t4"
     = Raise (Exn TypeError "sequence index must be integer, not 'slice'")
  /\ call_get_average_sentiment Sample.one_score 50 "t4"
     = Raise (Exn AttributeError
         "'SentimentClassifier' object has no attribute 'get_average_sentiment'").
Proof. vm_compute. repeat split. Qed.

(** On an empty cache the body of [get_average_sentiment] returns, for
    every window, the dict with [average_sentiment] 0, [message_count] 0 and
    the timestamp; that dict has no [sentiment_distribution], hence no
    bucket count. *)
Lemma aggregate_empty
  (self : SentimentClassifier) (w : Z) (utcnow : string) :
  items (sentiment_cache self) = [] ->
  get_average_sentiment self w utcnow
  = Ok (VDict [("average_sentiment", VInt 0); ("message_count", VInt 0);
               ("timestamp", VStr utcnow)])
  /\ forall bucket v,
       get_average_sentiment self w utcnow = Ok v ->
       snapshot_field "average_sentiment" v = Some (VInt 0)
       /\ snapshot_field "message_count" v = Some (VInt 0)
       /\ snapshot_count bucket v = None.
Proof.
  intros Hempty.
  assert (E : get_average_sentiment self w utcnow
              = Ok (VDict [("average_sentiment", VInt 0);
                           ("message_count", VInt 0);
                           ("timestamp", VStr utcnow)])).
  { unfold get_average_sentiment, deque_is_empty. rewrite Hempty. reflexivity. }
  split; [exact E |].
  intros bucket v Hv. rewrite E in Hv. injection Hv as <-.
  repeat split.
Qed.

(** C3, the code on a freshly built analyzer (empty cache) and window 50:
    the call as [API.py] writes it raises [AttributeError], because
    [get_average_sentiment] is not an attribute of the instance, so the
    subscriber's tick yields the error payload and no snapshot; and the
    empty branch of the body, could it be reached, returns
    [average_sentiment] 0 and [message_count] 0 without any of the three
    bucket counts that the other branch returns. *)
Theorem aggregate_empty_call_raises :
  items (sentiment_cache (analyzer Sample.fresh)) = []
  /\ call_get_average_sentiment (analyzer Sample.fresh) 50 "t4"
     = Raise (Exn AttributeError
         "'SentimentClassifier' object has no attribute 'get_average_sentiment'")
  /\ event_stream_tick (Some (analyzer Sample.fresh)) "t4"
     = [Yield (JsonOf (VDict [("error",
          VStr "'SentimentClassifier' object has no attribute 'get_average_sentiment'")]));
        Sleep 10]
  /\ get_average_sentiment (analyzer Sample.fresh) 50 "t4"
     = Ok (VDict [("average_sentiment", VInt 0); ("message_count", VInt 0);
                  ("timestamp", VStr "t4")])
  /\ snapshot_count "positive"
       (VDict [("average_sentiment", VInt 0); ("message_count", VInt 0);
               ("timestamp", VStr "t4")]) = None
  /\ snapshot_count "neutral"
       (VDict [("average_sentiment", VInt 0); ("message_count", VInt 0);
               ("timestamp", VStr "t4")]) = None
  /\ snapshot_count "negative"
       (VDict [("average_sentiment", VInt 0); ("message_count", VInt 0);
               ("timestamp", VStr "t4")]) = None.
Proof. vm_compute. repeat split. Qed.

(** *** Strings *)

Lemma append_assoc (a b c : string) :
  ((a ++ b) ++ c = a ++ (b ++ c))%string.
Proof. induction a as [| x a IH]; cbn; [reflexivity | now rewrite IH]. Qed.

Lemma prefix_nil (s : string) : String.prefix "" s = true.
Proof. destruct s; reflexivity. Qed.

Lemma prefix_append (p s : string) : String.prefix p (p ++ s)%string = true.
Proof.
  induction p as [| x p IH]; cbn; [apply prefix_nil |].
  destruct (ascii_dec x x) as [_ | Hne]; [exact IH | now elim Hne].
Qed.

Lemma str_in_unfold (needle hay : string) :
  str_in needle hay
  = String.prefix needle hay
    || match hay with
       | EmptyString => false
       | String _ hay' => str_in needle hay'
       end.
Proof. destruct hay; reflexivity. Qed.

Lemma str_in_prefix (needle hay : string) :
  String.prefix needle hay = true -> str_in needle hay = true.
Proof. intros H. rewrite str_in_unfold, H. reflexivity. Qed.

Lemma str_in_append (needle a hay : string) :
  str_in needle hay = true -> str_in needle (a ++ hay)%string = true.
Proof.
  intros H. induction a as [| x a IH]; cbn [append]; [exact H |].
  rewrite str_in_unfold, IH. apply orb_true_r.
Qed.

Lemma has_char_append (c : ascii) (a b : string) :
  has_char c (a ++ b)%string = has_char c a || has_char c b.
Proof.
  induction a as [| x a IH]; cbn; [reflexivity |].
  now rewrite IH, orb_assoc.
Qed.

Lemma str_split_nonempty (sep : ascii) (maxsplit : option nat) (s : string) :
  str_split sep maxsplit s <> [].
Proof.
  destruct s as [| c s]; cbn; [discriminate |].
  destruct (may_split maxsplit && Ascii.eqb c sep); [discriminate |].
  destruct (str_split sep maxsplit s); discriminate.
Qed.

Lemma str_split_exhausted (sep : ascii) (s : string) :
  str_split sep (Some 0%nat) s = [s].
Proof.
  induction s as [| c s IH]; cbn; [reflexivity | now rewrite IH].
Qed.

(** A field free of the separator is split off at the first separator. *)
Lemma str_split_field
  (sep : ascii) (maxsplit : option nat) (field rest : string) :
  may_split maxsplit = true ->
  has_char sep field = false ->
  str_split sep maxsplit (field ++ String sep rest)%string
  = field :: str_split sep (after_split maxsplit) rest.
Proof.
  intros Hmay. induction field as [| c field IH]; intros Hfree.
  - cbn. now rewrite Hmay, Ascii.eqb_refl.
  - cbn in Hfree. apply orb_false_iff in Hfree as [Hc Hfree].
    cbn. rewrite Hc, andb_false_r, (IH Hfree). reflexivity.
Qed.

(** *** Parsing *)

Lemma parse_chat_post_line (user host channel text : string) :
  has_char "!"%char user = false ->
  has_char " "%char user = false ->
  has_char " "%char host = false ->
  has_char " "%char channel = false ->
  parse_irc_message (chat_post_line user host channel text)
  = ((Some user, Some channel, Some text), []).
Proof.
  intros Hbang Huser Hhost Hchan.
  unfold parse_irc_message, parse_irc_message_try.
  assert (Hin : str_in "PRIVMSG" (chat_post_line user host channel text) = true).
  { unfold chat_post_line.
    do 5 apply str_in_append. apply str_in_prefix, prefix_append. }
  assert (Hping : startswith "PING" (chat_post_line user host channel text)
                  = false) by reflexivity.
  assert (Hparts :
    str_split " "%char (Some 3%nat) (chat_post_line user host channel text)
    = [(":" ++ user ++ "!" ++ host)%string; "PRIVMSG";
       ("#" ++ channel)%string; (":" ++ text)%string]).
  { unfold chat_post_line.
    replace (":" ++ user ++ "!" ++ host ++ " " ++ "PRIVMSG" ++ " " ++ "#"
             ++ channel ++ " " ++ ":" ++ text)%string
      with ((":" ++ user ++ "!" ++ host)
            ++ String " "
                 ("PRIVMSG"
                  ++ String " " (("#" ++ channel) ++ String " " (":" ++ text))))%string.
    2:{ cbn. f_equal. now rewrite !append_assoc. }
    rewrite str_split_field; [| reflexivity |].
    2:{ cbn. rewrite has_char_append. cbn. now rewrite Huser, Hhost. }
    f_equal. cbn [after_split Nat.pred].
    rewrite str_split_field; [| reflexivity | reflexivity].
    f_equal. cbn [after_split Nat.pred].
    rewrite str_split_field; [| reflexivity |].
    2:{ cbn. exact Hchan. }
    f_equal. apply str_split_exhausted. }
  rewrite Hin, Hping, Hparts. cbn.
  replace (user ++ String "!" host)%string
    with (user ++ String "!"%char host)%string by reflexivity.
  rewrite str_split_field by (reflexivity || assumption).
  rewrite !prefix_nil. reflexivity.
Qed.

(** C6: the sample line parses to [("alice", "somechannel", "hello world")]
    with nothing printed; and every line of the chat-post shape built from a
    user free of [!] and spaces, a prefix rest and a channel free of spaces
    and any text parses to that user, that channel without its [#] and that
    text without its leading [:]. *)
Theorem parse_well_formed_chat_post :
  parse_irc_message ":alice!alice@x PRIVMSG #somechannel :hello world"
  = ((Some "alice", Some "somechannel", Some "hello world"), [])
  /\ forall user host channel text : string,
       has_char "!"%char user = false ->
       has_char " "%char user = false ->
       has_char " "%char host = false ->
       has_char " "%char channel = false ->
       parse_irc_message (chat_post_line user host channel text)
       = ((Some user, Some channel, Some text), []).
Proof.
  split; [reflexivity | apply parse_chat_post_line].
Qed.

(** The indexing inside [parse_irc_message] is always in range: the [try]
    block either returns a triple, when all guards pass, or falls through. *)
Lemma parse_irc_message_try_cases (raw : string) :
  (accepted raw = false /\ parse_irc_message_try raw = Ok None)
  \/ (accepted raw = true
      /\ exists u c m, parse_irc_message_try raw = Ok (Some (u, c, m))).
Proof.
  unfold accepted, parse_irc_message_try.
  destruct (str_in "PRIVMSG" raw && negb (startswith "PING" raw));
    [| left; split; reflexivity].
  destruct (str_split " "%char (Some 3%nat) raw)
    as [| p0 [| p1 [| p2 [| p3 rest]]]];
    try (left; split; reflexivity).
  cbn [andb length Nat.leb hd list_getitem nth_error bind].
  destruct (startswith ":" p0); [| left; split; reflexivity].
  right. split; [reflexivity |].
  pose proof (str_split_nonempty "!"%char None (str_tail p0)) as Hne.
  destruct (str_split "!"%char None (str_tail p0)) as [| u us];
    [now elim Hne |].
  cbn. eauto.
Qed.

Lemma parse_irc_message_silent (raw : string) :
  snd (parse_irc_message raw) = [].
Proof.
  unfold parse_irc_message.
  destruct (parse_irc_message_try_cases raw) as [[_ ->] | [_ (u & c & m & ->)]];
    reflexivity.
Qed.

Lemma parse_irc_message_no_event (raw : string) :
  fst (parse_irc_message raw) = no_event <-> accepted raw = false.
Proof.
  unfold parse_irc_message.
  destruct (parse_irc_message_try_cases raw)
    as [[Ha ->] | [Ha (u & c & m & ->)]]; cbn; rewrite Ha; split;
    try reflexivity; discriminate.
Qed.

(** C7, as the code has it: on every line [parse_irc_message] returns
    without entering its [except] clause; it returns [(None, None, None)]
    exactly when one of its guards fails (no [PRIVMSG] in the line, a line
    starting with [PING], fewer than four space-separated parts, a first
    part not starting with [:]); and a line without [PING] that it rejects
    leaves the listen loop listening with nothing counted, sent or
    processed. *)
Theorem parse_irc_message_total (raw : string) :
  snd (parse_irc_message raw) = []
  /\ (fst (parse_irc_message raw) = no_event <-> accepted raw = false)
  /\ forall (le : line_env) (s : session),
       str_in "PING" raw = false ->
       fst (parse_irc_message raw) = no_event ->
       listen_step le raw s = (Listening, s).
Proof.
  split; [apply parse_irc_message_silent |].
  split; [apply parse_irc_message_no_event |].
  intros le s Hping Hno. unfold listen_step. rewrite Hping.
  pose proof (parse_irc_message_silent raw) as Hsilent.
  destruct (parse_irc_message raw) as [[[u c] m] printed].
  cbn in Hno, Hsilent. unfold no_event in Hno.
  injection Hno as -> -> ->. subst printed. cbn.
  destruct s as [r [a d out] snt]. cbn. now rewrite app_nil_r.
Qed.

(** C7, as stated, fails: two lines that are not of the chat-post shape (a
    stray line without [!], [#] or text colon, and a server notice) are
    parsed into chat events, and the listen loop counts and processes the
    first one. *)
Lemma stray_line_yields_event :
  chat_post_shape Sample.stray_line = false
  /\ parse_irc_message Sample.stray_line
     = ((Some "foo", Some "baz", Some "PRIVMSG"), [])
  /\ message_count
       (reader (snd (listen_step Sample.quiet_send Sample.stray_line
                       Sample.opening))) = 1%Z
  /\ map message
       (items (recent_messages
                 (analyzer (shared (snd (listen_step Sample.quiet_send
                                           Sample.stray_line Sample.opening))))))
     = ["PRIVMSG"]
  /\ chat_post_shape Sample.notice_line = false
  /\ parse_irc_message Sample.notice_line
     = ((Some "tmi.twitch.tv", Some "somechannel",
         Some "PRIVMSG is not available"), []).
Proof. vm_compute. repeat split. Qed.

(** *** The listen loop *)

Lemma listen_step_ping (le : line_env) (raw : string) (s : session) :
  str_in "PING" raw = true ->
  sent (snd (listen_step le raw s)) = sent s ++ [PONG]
  /\ reader (snd (listen_step le raw s)) = reader s
  /\ analyzer (shared (snd (listen_step le raw s))) = analyzer (shared s)
  /\ db (shared (snd (listen_step le raw s))) = db (shared s).
Proof.
  intros Hping. unfold listen_step. rewrite Hping.
  destruct (send_fault le); cbn; repeat split.
Qed.

(** C10: a line that holds [PING] anywhere is answered with one
    [PONG :tmi.twitch.tv] and yields no chat event: the reader's message
    count, the analyzer and the database are left as they were; and a line
    that makes the message count move, that is one that took the chat-post
    branch, does not hold [PING]. *)
Theorem ping_lines_answered (le : line_env) (raw : string) (s : session) :
  (str_in "PING" raw = true ->
   sent (snd (listen_step le raw s)) = sent s ++ [PONG]
   /\ reader (snd (listen_step le raw s)) = reader s
   /\ analyzer (shared (snd (listen_step le raw s))) = analyzer (shared s)
   /\ db (shared (snd (listen_step le raw s))) = db (shared s))
  /\ (message_count (reader (snd (listen_step le raw s)))
      <> message_count (reader s) ->
      str_in "PING" raw = false).
Proof.
  split; [apply listen_step_ping |].
  intros Hmoved. destruct (str_in "PING" raw) eqn:Hping; [| reflexivity].
  destruct (listen_step_ping le raw s Hping) as (_ & Hr & _).
  rewrite Hr in Hmoved. now elim Hmoved.
Qed.

(** The sample chat post with [PING] in its text would parse to an event,
    yet the loop answers it as a keepalive and drops it. *)
Lemma ping_lines_answered_witness :
  fst (parse_irc_message Sample.alice_ping_line)
  = (Some "alice", Some "somechannel", Some "PING me")
  /\ sent (snd (listen_step Sample.quiet_send Sample.alice_ping_line
                  Sample.opening)) = [PONG]
  /\ reader (snd (listen_step Sample.quiet_send Sample.alice_ping_line
                    Sample.opening)) = reader Sample.opening.
Proof.
  split; [reflexivity |].
  destruct (proj1 (ping_lines_answered Sample.quiet_send
                     Sample.alice_ping_line Sample.opening) eq_refl)
    as (Hs & Hr & _).
  split; [exact Hs | exact Hr].
Defined.

(** *** The stream publisher *)

Lemma event_stream_normal_cadence
  (sa : option SentimentClassifier) (utcnow : string) (r : option json) :
  snapshot_payload sa utcnow = Ok r ->
  event_stream_tick sa utcnow
  = match r with Some data => [Yield data] | None => [] end ++ [Sleep 5].
Proof.
  intros H. unfold event_stream_tick. rewrite H. destruct r; reflexivity.
Qed.

(** C9: when computing or serialising the snapshot of a tick raises [e],
    that tick yields the error payload [{"error": str(e)}] in place of a
    snapshot and then sleeps 10 seconds, and the loop goes on with the
    following ticks. *)
Theorem stream_error_backoff
  (sa : option SentimentClassifier) (utcnow : string) (e : exn)
  (rest : list (option SentimentClassifier * string)) :
  snapshot_payload sa utcnow = Raise e ->
  event_stream_tick sa utcnow = [Yield (error_payload e); Sleep 10]
  /\ event_stream ((sa, utcnow) :: rest)
     = Yield (JsonOf (VDict [("error", VStr (exn_str e))])) :: Sleep 10
       :: event_stream rest.
Proof.
  intros H. cbn [event_stream]. unfold event_stream_tick. rewrite H.
  split; reflexivity.
Qed.

Lemma stream_error_backoff_witness :
  event_stream [(Some Sample.one_score, "t4"); (None, "t5")]
  = [Yield (JsonOf (VDict [("error",
        VStr "'SentimentClassifier' object has no attribute 'get_average_sentiment'")]));
     Sleep 10; Sleep 5].
Proof.
  apply (stream_error_backoff (Some Sample.one_score) "t4"
           (Exn AttributeError
              "'SentimentClassifier' object has no attribute 'get_average_sentiment'")
           [(None, "t5")]).
  reflexivity.
Defined.

(* ================================================================== *)
(** ** Further properties of the ingestion path *)
(* ================================================================== *)

Import Store.

Lemma process_message_db (ev : env) (u c m : string) (w : world) :
  db (exec (process_message ev u c m) w)
  = match message_fault ev with
    | Some _ => db w
    | None =>
        let k := (ev, (u, c, m)) in
        {| twitch_messages := twitch_messages (db w) ++ [new_message_row (db w) k];
           twitch_messages_seq := (twitch_messages_seq (db w) + 1)%Z;
           message_sentiments :=
             message_sentiments (db w)
             ++ (if succeeds (predict_label (analyzer w)) k
                 then [new_sentiment_row (predict_label (analyzer w)) (db w) k]
                 else []);
           message_sentiments_seq :=
             if succeeds (predict_label (analyzer w)) k
             then (message_sentiments_seq (db w) + 1)%Z
             else message_sentiments_seq (db w) |}
    end.
Proof.
  unfold exec, process_message, try_except, mbind, store_message,
    analyze_sentiment, store_sentiment, succeeds, score_of, new_message_row,
    new_sentiment_row.
  destruct (message_fault ev) as [e1 |]; [reflexivity |].
  cbn. unfold lift.
  destruct (predict_label (analyzer w) m) as [p | e2]; cbn.
  - destruct (sentiment_fault ev) as [e3 |]; cbn; [| reflexivity].
    now rewrite app_nil_r.
  - now rewrite app_nil_r.
Qed.

Lemma run_call_db (w : world) (k : call) :
  db (run_call w k)
  = if inserts k
    then {| twitch_messages := twitch_messages (db w) ++ [new_message_row (db w) k];
            twitch_messages_seq := (twitch_messages_seq (db w) + 1)%Z;
            message_sentiments :=
              message_sentiments (db w)
              ++ (if succeeds (predict_label (analyzer w)) k
                  then [new_sentiment_row (predict_label (analyzer w)) (db w) k]
                  else []);
            message_sentiments_seq :=
              if succeeds (predict_label (analyzer w)) k
              then (message_sentiments_seq (db w) + 1)%Z
              else message_sentiments_seq (db w) |}
    else db w.
Proof.
  destruct k as [ev [[u c] m]]. unfold run_call, inserts. cbn [fst].
  rewrite process_message_db. destruct (message_fault ev); reflexivity.
Qed.

Lemma succeeds_inserts (model : string -> result string) (k : call) :
  succeeds model k = true -> inserts k = true.
Proof.
  destruct k as [ev [[u c] m]]. unfold succeeds, inserts. cbn.
  destruct (message_fault ev); [discriminate | reflexivity].
Qed.

Lemma succeeds_first_fault (model : string -> result string) (k : call) :
  succeeds model k = true <-> first_fault model k = None.
Proof.
  destruct k as [ev [[u c] m]]. unfold succeeds, first_fault.
  destruct (message_fault ev), (model m), (sentiment_fault ev);
    split; intros H; (reflexivity || discriminate).
Qed.

(** The cut of the stored line counts characters, not bytes: text of at
    most [n] characters is kept whole, whatever its length in bytes. *)
Lemma str_take_all (n : nat) (s : string) :
  (length (filter (fun c => negb (is_continuation c)) (list_ascii_of_string s))
   <= n)%nat ->
  str_take n s = s.
Proof.
  revert n. induction s as [| c s IH]; intros n Hle; [reflexivity |].
  cbn [str_take]. cbn [list_ascii_of_string filter] in Hle.
  destruct (is_continuation c); cbn [negb] in Hle.
  - now rewrite IH.
  - cbn [length] in Hle. destruct n as [| n]; [lia |].
    rewrite IH by lia. reflexivity.
Qed.

Lemma str_take_prefix (n : nat) (s : string) :
  String.prefix (str_take n s) s = true.
Proof.
  revert n. induction s as [| c s IH]; intros n; [reflexivity |].
  cbn [str_take].
  destruct (is_continuation c); [| destruct n as [| n]; [reflexivity |]];
    cbn; destruct (ascii_dec c c) as [_ | Hne];
    try apply IH; now elim Hne.
Qed.

Lemma str_take_euros :
  String.length Cases.euros = 60%nat /\ str_take 50 Cases.euros = Cases.euros.
Proof. split; reflexivity. Qed.

(** X1: [process_message] never lets an exception out.  When one of its
    three steps raises, the first exception is printed once and both caches
    stay as they were; when none raises, it prints the stored line (text cut
    to 50 characters) and the label, which is POSITIVE exactly when the
    score is 1. *)
Theorem process_message_logs_once (ev : env) (u c m : string) (w : world) :
  fst (process_message ev u c m w) = Ok tt
  /\ match first_fault (predict_label (analyzer w)) (ev, (u, c, m)) with
     | Some e =>
         stdout (exec (process_message ev u c m) w)
         = stdout w ++ [PrintProcessError e]
         /\ analyzer (exec (process_message ev u c m) w) = analyzer w
     | None =>
         exists p,
           predict_label (analyzer w) m = Ok p
           /\ stdout (exec (process_message ev u c m) w)
              = stdout w
                ++ [PrintStored u c (str_take 50 m);
                    if String.eqb p "pos"
                    then PrintSentiment "POSITIVE" 1
                    else PrintSentiment "NEGATIVE" (-1)]
     end.
Proof.
  unfold exec, process_message, try_except, mbind, store_message,
    analyze_sentiment, store_sentiment, first_fault, lift.
  destruct (message_fault ev) as [e1 |]; [cbn; repeat split |].
  cbn.
  destruct (predict_label (analyzer w) m) as [p | e2]; [| cbn; repeat split].
  cbn.
  destruct (sentiment_fault ev) as [e3 |]; [cbn; repeat split |].
  cbn. split; [reflexivity |]. exists p. split; [reflexivity |].
  rewrite <- app_assoc. destruct (String.eqb p "pos"); reflexivity.
Qed.

(** X2: what one call writes.  A failed message insert leaves the database
    as it was.  Otherwise exactly one message row is added, with the next
    id; a sentiment row is added exactly when the model and the sentiment
    insert go through as well, and it refers to the message row of the same
    call. *)
Theorem process_message_rows (ev : env) (u c m : string) (w : world) :
  let k := (ev, (u, c, m)) in
  let d := db w in
  let d' := db (exec (process_message ev u c m) w) in
  (inserts k = false -> d' = d)
  /\ (inserts k = true ->
      twitch_messages d' = twitch_messages d ++ [new_message_row d k]
      /\ m_id (new_message_row d k) = (twitch_messages_seq d + 1)%Z
      /\ twitch_messages_seq d' = (twitch_messages_seq d + 1)%Z)
  /\ (succeeds (predict_label (analyzer w)) k = true ->
      message_sentiments d'
      = message_sentiments d
        ++ [new_sentiment_row (predict_label (analyzer w)) d k]
      /\ s_message_id (new_sentiment_row (predict_label (analyzer w)) d k)
         = m_id (new_message_row d k))
  /\ (succeeds (predict_label (analyzer w)) k = false ->
      message_sentiments d' = message_sentiments d).
Proof.
  intros k d d'.
  assert (E : d' = db (run_call w k)) by reflexivity.
  rewrite run_call_db in E. fold d in E.
  split; [| split; [| split]].
  - intros Hi. now rewrite Hi in E.
  - intros Hi. rewrite Hi in E. rewrite E. cbn. repeat split.
  - intros Hs. rewrite (succeeds_inserts _ _ Hs), Hs in E. rewrite E.
    cbn. repeat split.
  - intros Hs. rewrite Hs in E. rewrite E.
    destruct (inserts k); cbn; [apply app_nil_r | reflexivity].
Qed.

Lemma process_message_rows_witness :
  map m_message
    (twitch_messages (db (exec (process_message Sample.healthy
                                  "bob" "c1" "great stream") Sample.fresh)))
  = ["great stream"]
  /\ Store.sentiment_refs
       (db (exec (process_message Sample.healthy
                    "bob" "c1" "great stream") Sample.fresh)) = [1%Z].
Proof.
  destruct (process_message_rows Sample.healthy "bob" "c1" "great stream"
              Sample.fresh) as (_ & Hm & Hs & _).
  destruct (Hm eq_refl) as (Em & _). destruct (Hs eq_refl) as (Es & _).
  unfold Store.sentiment_refs. rewrite Em, Es. split; reflexivity.
Defined.

(** *** Ids and references *)

Lemma StronglySorted_snoc (l : list Z) (x : Z) :
  StronglySorted Z.lt l -> Forall (fun i => (i < x)%Z) l ->
  StronglySorted Z.lt (l ++ [x]).
Proof.
  induction l as [| a l IH]; intros Hs Hlt; cbn.
  - constructor; constructor.
  - inversion Hs as [| ? ? Hs' Ha]; subst.
    inversion Hlt as [| ? ? Hax Hlt']; subst.
    constructor; [now apply IH |].
    apply Forall_app. split; [assumption | now constructor].
Qed.

Lemma StronglySorted_lt_NoDup (l : list Z) :
  StronglySorted Z.lt l -> NoDup l.
Proof.
  induction 1 as [| a l Hs IH Ha]; constructor; [| assumption].
  intros Hin. rewrite Forall_forall in Ha. specialize (Ha a Hin). lia.
Qed.

Lemma db_inv_empty : db_inv empty_database.
Proof. unfold db_inv. cbn. repeat split; constructor. Qed.

Lemma db_inv_run_call (w : world) (k : call) :
  db_inv (db w) -> db_inv (db (run_call w k)).
Proof.
  intros (I1 & I2 & I3 & I4 & I5 & I6). rewrite run_call_db.
  destruct (inserts k); [| repeat split; assumption].
  assert (Hnew : forall i, In i (message_ids (db w)) ->
                           (i < twitch_messages_seq (db w) + 1)%Z).
  { intros i Hi. rewrite Forall_forall in I2. specialize (I2 i Hi). lia. }
  assert (Hid : m_id (new_message_row (db w) k)
                = (twitch_messages_seq (db w) + 1)%Z)
    by (destruct k as [ev [[u c] m]]; reflexivity).
  unfold db_inv, message_ids, sentiment_ids, sentiment_refs in *.
  cbn [twitch_messages twitch_messages_seq message_sentiments
       message_sentiments_seq].
  rewrite !map_app. cbn [map]. rewrite Hid.
  split; [| split; [| split; [| split; [| split]]]].
  - apply StronglySorted_snoc; [assumption |]. now apply Forall_forall.
  - apply Forall_app. split.
    + eapply Forall_impl; [| exact I2]. cbn. intros; lia.
    + constructor; [lia | constructor].
  - destruct (succeeds _ k); cbn [map]; [| now rewrite app_nil_r].
    apply StronglySorted_snoc; [assumption |].
    eapply Forall_impl; [| exact I4].
    destruct k as [ev [[u c] m]]. cbn. intros; lia.
  - destruct (succeeds _ k); cbn [map].
    + apply Forall_app. split.
      * eapply Forall_impl; [| exact I4]. cbn. intros; lia.
      * destruct k as [ev [[u c] m]]. constructor; [cbn; lia | constructor].
    + now rewrite app_nil_r.
  - destruct (succeeds _ k); cbn [map]; [| now rewrite app_nil_r].
    apply StronglySorted_snoc; [assumption |].
    destruct k as [ev [[u c] m]]. cbn.
    eapply Forall_impl; [| exact I6]. cbn. intros i Hi. now apply Hnew.
  - apply Forall_app. split.
    + eapply Forall_impl; [| exact I6]. cbn. intros i Hi.
      apply in_or_app. now left.
    + destruct (succeeds _ k); cbn [map]; [| constructor].
      destruct k as [ev [[u c] m]]. constructor; [| constructor].
      cbn. apply in_or_app. right. now left.
Qed.

Lemma db_inv_run (calls : list call) (w : world) :
  db_inv (db w) -> db_inv (db (run calls w)).
Proof.
  revert w. induction calls as [| k calls IH]; intros w Hinv; [assumption |].
  cbn. apply IH, db_inv_run_call, Hinv.
Qed.

(** X3: along any run of calls, whatever fails, message ids stay distinct
    and increasing, every sentiment row refers to a stored message, and no
    message gets a second sentiment row. *)
Theorem ids_and_references_kept (calls : list call) (w : world) :
  db_inv (db w) ->
  let d := db (run calls w) in
  db_inv d
  /\ NoDup (message_ids d)
  /\ NoDup (sentiment_refs d)
  /\ incl (sentiment_refs d) (message_ids d)
  /\ (length (message_sentiments d) <= length (twitch_messages d))%nat.
Proof.
  intros Hinv d.
  pose proof (db_inv_run calls w Hinv) as Hd. fold d in Hd.
  destruct Hd as (I1 & I2 & I3 & I4 & I5 & I6).
  split; [repeat split; assumption |].
  split; [now apply StronglySorted_lt_NoDup |].
  split; [now apply StronglySorted_lt_NoDup |].
  assert (Hincl : incl (sentiment_refs d) (message_ids d)).
  { intros i Hi. rewrite Forall_forall in I6. now apply I6. }
  split; [exact Hincl |].
  pose proof (NoDup_incl_length (StronglySorted_lt_NoDup _ I5) Hincl) as Hlen.
  unfold sentiment_refs, message_ids in Hlen. now rewrite !length_map in Hlen.
Qed.

Lemma ids_and_references_kept_witness :
  message_ids (db (run Cases.mixed_calls Cases.moody_start)) = [1; 2; 3; 4]%Z
  /\ sentiment_refs (db (run Cases.mixed_calls Cases.moody_start)) = [1; 4]%Z
  /\ incl (sentiment_refs (db (run Cases.mixed_calls Cases.moody_start)))
        (message_ids (db (run Cases.mixed_calls Cases.moody_start))).
Proof.
  split; [reflexivity | split; [reflexivity |]].
  apply (ids_and_references_kept Cases.mixed_calls Cases.moody_start).
  unfold db_inv. cbn. repeat split; constructor.
Defined.

(** *** The caches along a run with failures *)

Lemma map_lastn {A B : Type} (f : A -> B) (n : nat) (l : list A) :
  map f (lastn n l) = lastn n (map f l).
Proof. unfold lastn. now rewrite skipn_map, length_map. Qed.

Lemma Forall_lastn {A : Type} (P : A -> Prop) (n : nat) (l : list A) :
  Forall P l -> Forall P (lastn n l).
Proof.
  unfold lastn. generalize (length l - n)%nat as k. intros k. revert l.
  induction k as [| k IH]; intros l H; [exact H |].
  destruct H as [| x l Hx Hl]; [constructor | now apply IH].
Qed.

Lemma record_items (a : SentimentClassifier) (e : CacheEntry) (s : Q) :
  cache_inv a ->
  items (recent_messages (record a e s))
  = lastn 1000 (items (recent_messages a) ++ [e])
  /\ items (sentiment_cache (record a e s))
     = lastn 1000 (items (sentiment_cache a) ++ [s]).
Proof.
  intros (Hm1 & Hm2 & Hlen & Hle). cbn [record recent_messages sentiment_cache].
  rewrite !deque_append_items by (unfold bounded; lia).
  now rewrite Hm1, Hm2.
Qed.

Lemma run_items_recorded (calls : list call) (w : world) :
  cache_inv (analyzer w) ->
  items (recent_messages (analyzer (run calls w)))
  = lastn 1000 (items (recent_messages (analyzer w))
                ++ map (entry_of (predict_label (analyzer w)))
                     (filter (succeeds (predict_label (analyzer w))) calls))
  /\ items (sentiment_cache (analyzer (run calls w)))
     = lastn 1000 (items (sentiment_cache (analyzer w))
                   ++ map (score_of (predict_label (analyzer w)))
                        (filter (succeeds (predict_label (analyzer w))) calls)).
Proof.
  revert w. induction calls as [| k calls IH]; intros w Hinv.
  - cbn. rewrite !app_nil_r.
    destruct Hinv as (_ & _ & Hlen & Hle).
    rewrite !lastn_all by lia. split; reflexivity.
  - cbn [run fold_left filter].
    pose proof (cache_inv_run_call w k Hinv) as Hinv'.
    specialize (IH (run_call w k) Hinv').
    rewrite run_call_model in IH. unfold run in IH.
    destruct IH as [IHm IHs]. rewrite IHm, IHs.
    rewrite run_call_analyzer.
    destruct (succeeds (predict_label (analyzer w)) k).
    + destruct (record_items (analyzer w)
                  (entry_of (predict_label (analyzer w)) k)
                  (score_of (predict_label (analyzer w)) k) Hinv) as [-> ->].
      cbn [map]. rewrite !lastn_app_lastn, <- !app_assoc.
      split; reflexivity.
    + split; reflexivity.
Qed.

(** X4: after any run of calls from a state within capacity, each cache
    holds the last 1000 of its old items followed by what the calls that
    reached the cache update recorded, in call order; calls that failed
    leave no trace in the caches. *)
Theorem caches_hold_latest_recorded (calls : list call) (w : world) :
  cache_inv (analyzer w) ->
  let model := predict_label (analyzer w) in
  let recorded := filter (succeeds model) calls in
  items (recent_messages (analyzer (run calls w)))
  = lastn 1000 (items (recent_messages (analyzer w))
                ++ map (entry_of model) recorded)
  /\ items (sentiment_cache (analyzer (run calls w)))
     = lastn 1000 (items (sentiment_cache (analyzer w))
                   ++ map (score_of model) recorded)
  /\ length (items (sentiment_cache (analyzer (run calls w))))
     = Nat.min 1000 (length (items (sentiment_cache (analyzer w)))
                     + length recorded).
Proof.
  intros Hinv model recorded.
  destruct (run_items_recorded calls w Hinv) as [Hm Hs].
  split; [exact Hm |]. split; [exact Hs |].
  rewrite Hs, lastn_length, length_app, length_map. reflexivity.
Qed.

Lemma caches_hold_latest_recorded_witness :
  length (items (sentiment_cache
                   (analyzer (run Sample.many_calls Sample.fresh))))
  = Nat.min 1000
      (length (items (sentiment_cache (analyzer Sample.fresh)))
       + length (filter (succeeds (predict_label (analyzer Sample.fresh)))
                   Sample.many_calls)).
Proof.
  apply (caches_hold_latest_recorded Sample.many_calls Sample.fresh).
  unfold cache_inv. cbn. repeat split; lia.
Defined.

Lemma mirrors_run_call (w : world) (k : call) :
  cache_inv (analyzer w) -> mirrors w -> mirrors (run_call w k).
Proof.
  intros Hinv Hmir. unfold mirrors in *.
  rewrite run_call_analyzer, run_call_db.
  destruct (succeeds (predict_label (analyzer w)) k) eqn:Hs.
  - rewrite (succeeds_inserts _ _ Hs).
    destruct (record_items (analyzer w)
                (entry_of (predict_label (analyzer w)) k)
                (score_of (predict_label (analyzer w)) k) Hinv) as [_ ->].
    cbn [message_sentiments]. rewrite Hmir, map_app, lastn_app_lastn.
    destruct k as [ev [[u c] m]]. reflexivity.
  - destruct (inserts k); cbn [message_sentiments];
      [rewrite app_nil_r |]; exact Hmir.
Qed.

(** X5: started on an empty database, the score cache is at every point
    the scores of the newest 1000 rows of [message_sentiments], oldest
    first: a score is cached exactly when its sentiment row was written. *)
Theorem cache_mirrors_sentiment_table
  (model : string -> result string) (calls : list call) :
  let w := run calls (start model empty_database) in
  items (sentiment_cache (analyzer w))
  = lastn 1000 (map s_sentiment_score (message_sentiments (db w)))
  /\ length (items (sentiment_cache (analyzer w)))
     = Nat.min 1000 (length (message_sentiments (db w))).
Proof.
  intros w.
  assert (H : cache_inv (analyzer w) /\ mirrors w).
  { subst w.
    assert (H0 : cache_inv (analyzer (start model empty_database))
                 /\ mirrors (start model empty_database))
      by (split; [apply cache_inv_init | reflexivity]).
    revert H0. generalize (start model empty_database).
    induction calls as [| k calls IH]; intros w0 [Hinv Hmir];
      [split; assumption |].
    cbn. apply IH. split;
      [now apply cache_inv_run_call | now apply mirrors_run_call]. }
  destruct H as [_ Hmir]. unfold mirrors in Hmir.
  split; [exact Hmir |].
  now rewrite Hmir, lastn_length, length_map.
Qed.

Lemma aligned_record (a : SentimentClassifier) (e : CacheEntry) :
  cache_inv a -> aligned a -> aligned (record a e (sentiment e)).
Proof.
  intros Hinv Hal. unfold aligned in *.
  destruct (record_items a e (sentiment e) Hinv) as [-> ->].
  now rewrite map_lastn, map_app, Hal.
Qed.

Lemma unit_score_of (model : string -> result string) (k : call) :
  succeeds model k = true -> unit_score (score_of model k).
Proof.
  destruct k as [ev [[u c] m]]. unfold succeeds, score_of, unit_score.
  destruct (message_fault ev); [discriminate |].
  destruct (model m) as [p | e]; [| discriminate].
  intros _. destruct (String.eqb p "pos"); [left | right]; reflexivity.
Qed.

(** X6: in every state reachable from start-up the two caches agree index
    by index (the i-th entry of [recent_messages] carries the i-th score of
    [sentiment_cache]), and every cached score is 1 or -1. *)
Theorem caches_aligned_unit_scores
  (model : string -> result string) (d : database) (calls : list call) :
  let a := analyzer (run calls (start model d)) in
  map sentiment (items (recent_messages a)) = items (sentiment_cache a)
  /\ Forall unit_score (items (sentiment_cache a)).
Proof.
  intros a.
  assert (H : cache_inv a /\ aligned a /\ Forall unit_score (items (sentiment_cache a))).
  { subst a.
    assert (H0 : cache_inv (analyzer (start model d))
                 /\ aligned (analyzer (start model d))
                 /\ Forall unit_score
                      (items (sentiment_cache (analyzer (start model d)))))
      by (split; [apply cache_inv_init | split; [reflexivity | constructor]]).
    revert H0. generalize (start model d).
    induction calls as [| k calls IH]; intros w0 (Hinv & Hal & Hu);
      [split; [assumption | split; assumption] |].
    cbn. apply IH. split; [now apply cache_inv_run_call |].
    rewrite run_call_analyzer.
    destruct (succeeds (predict_label (analyzer w0)) k) eqn:Hs;
      [| split; assumption].
    split.
    - replace (score_of (predict_label (analyzer w0)) k)
        with (sentiment (entry_of (predict_label (analyzer w0)) k))
        by (destruct k as [ev [[u c] m]]; reflexivity).
      now apply aligned_record.
    - destruct (record_items (analyzer w0)
                  (entry_of (predict_label (analyzer w0)) k)
                  (score_of (predict_label (analyzer w0)) k) Hinv) as [_ ->].
      apply Forall_lastn, Forall_app. split; [assumption |].
      constructor; [now apply unit_score_of | constructor]. }
  destruct H as (_ & Hal & Hu). split; assumption.
Qed.

(** X7: over any cache reachable from start-up the neutral condition of
    the distribution counts nothing, and the positive and negative counts
    add up to the number of cached scores. *)
Theorem reachable_scores_never_neutral
  (model : string -> result string) (d : database) (calls : list call) :
  let scores := items (sentiment_cache (analyzer (run calls (start model d)))) in
  count_if bucket_neutral scores = 0%Z
  /\ (count_if bucket_positive scores + count_if bucket_negative scores)%Z
     = Z.of_nat (length scores).
Proof.
  intros scores.
  assert (Hu : Forall unit_score scores).
  { subst scores.
    assert (H0 : cache_inv (analyzer (start model d))
                 /\ Forall unit_score
                      (items (sentiment_cache (analyzer (start model d)))))
      by (split; [apply cache_inv_init | constructor]).
    revert H0. generalize (start model d).
    induction calls as [| k calls IH]; intros w0 (Hinv & Hu); [assumption |].
    cbn. apply IH. split; [now apply cache_inv_run_call |].
    rewrite run_call_analyzer.
    destruct (succeeds (predict_label (analyzer w0)) k) eqn:Hs; [| assumption].
    destruct (record_items (analyzer w0)
                (entry_of (predict_label (analyzer w0)) k)
                (score_of (predict_label (analyzer w0)) k) Hinv) as [_ ->].
    apply Forall_lastn, Forall_app. split; [assumption |].
    constructor; [now apply unit_score_of | constructor]. }
  assert (Hn : count_if bucket_neutral scores = 0%Z).
  { unfold count_if. induction Hu as [| s l Hs Hl IH]; [reflexivity |].
    cbn [filter]. destruct Hs as [-> | ->]; cbn; exact IH. }
  split; [exact Hn |].
  pose proof (bucket_counts_total scores) as Ht. lia.
Qed.

(* ================================================================== *)
(** ** Further properties of the parser and the listen loop *)
(* ================================================================== *)

(** Joining the fields with the separator gives the string back. *)
Lemma str_split_concat (sep : ascii) (maxsplit : option nat) (s : string) :
  String.concat (String sep EmptyString) (str_split sep maxsplit s) = s.
Proof.
  revert maxsplit. induction s as [| a s IH]; intros maxsplit; [reflexivity |].
  cbn [str_split].
  destruct (may_split maxsplit && Ascii.eqb a sep) eqn:E.
  - apply andb_true_iff in E as [_ E]. apply Ascii.eqb_eq in E. subst a.
    specialize (IH (after_split maxsplit)).
    pose proof (str_split_nonempty sep (after_split maxsplit) s) as Hne.
    destruct (str_split sep (after_split maxsplit) s) as [| f fs];
      [now elim Hne |].
    rewrite <- IH. reflexivity.
  - specialize (IH maxsplit).
    pose proof (str_split_nonempty sep maxsplit s) as Hne.
    destruct (str_split sep maxsplit s) as [| f fs]; [now elim Hne |].
    rewrite <- IH. destruct fs as [| g fs]; reflexivity.
Qed.

Lemma str_split_length (sep : ascii) (n : nat) (s : string) :
  (length (str_split sep (Some n) s) <= S n)%nat.
Proof.
  revert n. induction s as [| a s IH]; intros n; [cbn; lia |].
  cbn [str_split].
  destruct (may_split (Some n) && Ascii.eqb a sep) eqn:E.
  - destruct n as [| n]; [discriminate |].
    cbn [after_split Nat.pred length]. specialize (IH n). lia.
  - specialize (IH n).
    destruct (str_split sep (Some n) s) as [| f fs]; cbn in *; lia.
Qed.

(** Every field but the last is free of the separator. *)
Lemma str_split_fields_free (sep : ascii) (maxsplit : option nat) (s : string) :
  Forall (fun f => has_char sep f = false)
    (removelast (str_split sep maxsplit s)).
Proof.
  revert maxsplit. induction s as [| a s IH]; intros maxsplit; [constructor |].
  cbn [str_split].
  destruct (may_split maxsplit && Ascii.eqb a sep) eqn:E.
  - pose proof (str_split_nonempty sep (after_split maxsplit) s) as Hne.
    specialize (IH (after_split maxsplit)).
    destruct (str_split sep (after_split maxsplit) s) as [| f fs];
      [now elim Hne |].
    cbn [removelast]. constructor; [reflexivity | exact IH].
  - pose proof (str_split_nonempty sep maxsplit s) as Hne.
    specialize (IH maxsplit).
    destruct (str_split sep maxsplit s) as [| f fs] eqn:F; [now elim Hne |].
    destruct fs as [| g fs]; [constructor |].
    cbn [removelast] in IH |- *.
    inversion IH as [| ? ? Hf Hrest]; subst.
    constructor; [| exact Hrest].
    cbn. rewrite Hf, orb_false_r.
    destruct (may_split maxsplit) eqn:Hm; [exact E |].
    destruct maxsplit as [[| n] |]; try discriminate.
    rewrite str_split_exhausted in F. discriminate.
Qed.

(** Without a limit the last field is free of the separator too. *)
Lemma str_split_all_free (sep : ascii) (s : string) :
  Forall (fun f => has_char sep f = false) (str_split sep None s).
Proof.
  induction s as [| a s IH]; [constructor; [reflexivity | constructor] |].
  cbn [str_split may_split andb after_split].
  destruct (Ascii.eqb a sep) eqn:E.
  - constructor; [reflexivity | exact IH].
  - pose proof (str_split_nonempty sep None s) as Hne.
    destruct (str_split sep None s) as [| f fs]; [now elim Hne |].
    inversion IH as [| ? ? Hf Hrest]; subst.
    constructor; [| exact Hrest]. cbn. now rewrite E, Hf.
Qed.

(** A character absent from the string is absent from every field. *)
Lemma str_split_keeps_free
  (c sep : ascii) (maxsplit : option nat) (s : string) :
  has_char c s = false ->
  Forall (fun f => has_char c f = false) (str_split sep maxsplit s).
Proof.
  revert maxsplit. induction s as [| a s IH]; intros maxsplit Hfree.
  - constructor; [reflexivity | constructor].
  - cbn in Hfree. apply orb_false_iff in Hfree as [Ha Hs].
    cbn [str_split].
    destruct (may_split maxsplit && Ascii.eqb a sep).
    + constructor; [reflexivity | now apply IH].
    + specialize (IH maxsplit Hs).
      destruct (str_split sep maxsplit s) as [| f fs];
        [constructor; [cbn; now rewrite Ha | constructor] |].
      inversion IH as [| ? ? Hf Hrest]; subst.
      constructor; [| exact Hrest]. cbn. now rewrite Ha, Hf.
Qed.

Lemma has_char_tail (c : ascii) (s : string) :
  has_char c s = false -> has_char c (str_tail s) = false.
Proof.
  destruct s as [| a s]; [trivial |]. cbn. intros H.
  now apply orb_false_iff in H as [_ H].
Qed.

(** What a successful parse says about the four parts of the line. *)
Lemma parse_parts (raw u c m : string) :
  fst (parse_irc_message raw) = (Some u, Some c, Some m) ->
  exists p0 p1 p2 p3,
    str_split " "%char (Some 3%nat) raw = [p0; p1; p2; p3]
    /\ str_in "PRIVMSG" raw = true
    /\ startswith "PING" raw = false
    /\ startswith ":" p0 = true
    /\ (exists us, str_split "!"%char None (str_tail p0) = u :: us)
    /\ c = (if startswith "#" p2 then str_tail p2 else p2)
    /\ m = (if startswith ":" p3 then str_tail p3 else p3).
Proof.
  unfold parse_irc_message, parse_irc_message_try.
  destruct (str_in "PRIVMSG" raw) eqn:Hin; [| discriminate].
  destruct (startswith "PING" raw) eqn:Hping; [discriminate |].
  cbn [andb negb].
  pose proof (str_split_length " "%char 3 raw) as Hlen.
  destruct (str_split " "%char (Some 3%nat) raw)
    as [| p0 [| p1 [| p2 [| p3 rest]]]]; try discriminate.
  destruct rest as [| p4 rest]; [| cbn in Hlen; lia].
  cbn [length Nat.leb list_getitem nth_error bind].
  destruct (startswith ":" p0) eqn:Hcolon; [| discriminate].
  pose proof (str_split_nonempty "!"%char None (str_tail p0)) as Hne.
  destruct (str_split "!"%char None (str_tail p0)) as [| u0 us] eqn:Hu;
    [now elim Hne |].
  cbn. intros H. injection H as <- <- <-.
  exists p0, p1, p2, p3.
  do 4 (split; [reflexivity || assumption |]).
  split; [now exists us |]. split; reflexivity.
Qed.

(** X8: a line that parses to an event is its four space-separated parts
    joined by single spaces, the first three free of spaces and the first
    starting with [:]; the user is the text between that [:] and the first
    [!] of the first part (all of it when there is no [!]), the channel is
    the third part without one leading [#], and the text is everything
    after the third space without one leading [:], cut nowhere. *)
Theorem parsed_line_shape (raw u c m : string) :
  fst (parse_irc_message raw) = (Some u, Some c, Some m) ->
  exists p0 p1 p2 p3 : string,
    raw = (p0 ++ " " ++ p1 ++ " " ++ p2 ++ " " ++ p3)%string
    /\ has_char " "%char p0 = false
    /\ has_char " "%char p1 = false
    /\ has_char " "%char p2 = false
    /\ startswith ":" p0 = true
    /\ (str_tail p0 = u
        \/ exists rest, str_tail p0 = (u ++ "!" ++ rest)%string)
    /\ has_char "!"%char u = false
    /\ c = (if startswith "#" p2 then str_tail p2 else p2)
    /\ m = (if startswith ":" p3 then str_tail p3 else p3).
Proof.
  intros H.
  destruct (parse_parts raw u c m H)
    as (p0 & p1 & p2 & p3 & Hparts & _ & _ & Hcolon & [us Hu] & Hc & Hm).
  exists p0, p1, p2, p3.
  pose proof (str_split_concat " "%char (Some 3%nat) raw) as Hjoin.
  pose proof (str_split_fields_free " "%char (Some 3%nat) raw) as Hfree.
  rewrite Hparts in Hjoin, Hfree. cbn in Hjoin, Hfree.
  pose proof (Forall_inv Hfree) as F0.
  pose proof (Forall_inv (Forall_inv_tail Hfree)) as F1.
  pose proof (Forall_inv (Forall_inv_tail (Forall_inv_tail Hfree))) as F2.
  cbn beta in F0, F1, F2.
  pose proof (str_split_concat "!"%char None (str_tail p0)) as Hujoin.
  pose proof (str_split_all_free "!"%char (str_tail p0)) as Hufree.
  rewrite Hu in Hujoin, Hufree.
  pose proof (Forall_inv Hufree) as Fu. cbn beta in Fu.
  split; [now rewrite <- Hjoin |].
  do 4 (split; [assumption |]).
  split; [| split; [assumption | split; assumption]].
  destruct us as [| v us]; cbn in Hujoin; [now left |].
  right. eexists. symmetry. exact Hujoin.
Qed.

Lemma parsed_line_shape_witness :
  exists p0 p1 p2 p3 : string,
    Sample.alice_line = (p0 ++ " " ++ p1 ++ " " ++ p2 ++ " " ++ p3)%string
    /\ has_char " "%char p0 = false
    /\ has_char " "%char p1 = false
    /\ has_char " "%char p2 = false
    /\ startswith ":" p0 = true
    /\ (str_tail p0 = "alice"
        \/ exists rest, str_tail p0 = ("alice" ++ "!" ++ rest)%string)
    /\ has_char "!"%char "alice" = false
    /\ "somechannel" = (if startswith "#" p2 then str_tail p2 else p2)
    /\ "hello world" = (if startswith ":" p3 then str_tail p3 else p3).
Proof.
  apply (parsed_line_shape Sample.alice_line "alice" "somechannel" "hello world").
  reflexivity.
Defined.

(** X9: the user of a parsed event holds neither [!] nor a space, and its
    channel holds no space. *)
Theorem parsed_names_clean (raw u c m : string) :
  fst (parse_irc_message raw) = (Some u, Some c, Some m) ->
  has_char "!"%char u = false
  /\ has_char " "%char u = false
  /\ has_char " "%char c = false.
Proof.
  intros H.
  destruct (parse_parts raw u c m H)
    as (p0 & p1 & p2 & p3 & Hparts & _ & _ & _ & [us Hu] & Hc & _).
  pose proof (str_split_fields_free " "%char (Some 3%nat) raw) as Hfree.
  rewrite Hparts in Hfree. cbn in Hfree.
  pose proof (Forall_inv Hfree) as F0.
  pose proof (Forall_inv (Forall_inv_tail Hfree)) as F1.
  pose proof (Forall_inv (Forall_inv_tail (Forall_inv_tail Hfree))) as F2.
  cbn beta in F0, F1, F2.
  pose proof (str_split_all_free "!"%char (str_tail p0)) as Hufree.
  pose proof (str_split_keeps_free " "%char "!"%char None (str_tail p0)
                (has_char_tail _ _ F0)) as Huspace.
  rewrite Hu in Hufree, Huspace.
  pose proof (Forall_inv Hufree) as Fu.
  pose proof (Forall_inv Huspace) as Fs. cbn beta in Fu, Fs.
  split; [assumption | split; [assumption |]].
  rewrite Hc.
  destruct (startswith "#" p2); [now apply has_char_tail | assumption].
Qed.

Lemma parsed_names_clean_witness :
  has_char "!"%char "alice" = false
  /\ has_char " "%char "alice" = false
  /\ has_char " "%char "somechannel" = false.
Proof.
  apply (parsed_names_clean Sample.alice_line "alice" "somechannel"
           "hello world").
  reflexivity.
Defined.

Import Loop.

Lemma listen_step_chat (le : line_env) (raw : string) (s : session) :
  str_in "PING" raw = false ->
  fst (listen_step le raw s) = Listening
  /\ sent (snd (listen_step le raw s)) = sent s.
Proof.
  intros Hping. unfold listen_step. rewrite Hping.
  destruct (parse_irc_message raw) as [[[u c] m] printed].
  destruct (truthy u && truthy c && truthy m); split; reflexivity.
Qed.

Lemma listen_step_keepalive (le : line_env) (raw : string) (s : session) :
  str_in "PING" raw = true ->
  fst (listen_step le raw s)
  = (if sends_ok (le, raw) then Listening else Disconnected).
Proof.
  intros Hping. unfold listen_step, sends_ok. rewrite Hping. cbn [fst].
  destruct (send_fault le); reflexivity.
Qed.

Lemma listen_keepalive_replies
  (lines : list (line_env * string)) (s : session) :
  forallb sends_ok lines = true ->
  fst (listen lines s) = Listening
  /\ sent (snd (listen lines s))
     = sent s ++ repeat PONG (length (filter is_keepalive lines)).
Proof.
  revert s. induction lines as [| [le raw] lines IH]; intros s Hok.
  - cbn. now rewrite app_nil_r.
  - cbn in Hok. apply andb_true_iff in Hok as [Hsend Hok].
    cbn [listen filter]. unfold is_keepalive at 1. cbn [snd].
    destruct (str_in "PING" raw) eqn:Hping.
    + pose proof (listen_step_keepalive le raw s Hping) as Hst.
      rewrite Hsend in Hst.
      destruct (listen_step_ping le raw s Hping) as (Hsent & _).
      destruct (listen_step le raw s) as [st s']. cbn in Hst, Hsent. subst st.
      destruct (IH s' Hok) as [IH1 IH2]. split; [exact IH1 |].
      rewrite IH2, Hsent, <- app_assoc. reflexivity.
    + destruct (listen_step_chat le raw s Hping) as [Hst Hsent].
      destruct (listen_step le raw s) as [st s']. cbn in Hst, Hsent. subst st.
      destruct (IH s' Hok) as [IH1 IH2]. split; [exact IH1 |].
      now rewrite IH2, Hsent.
Qed.

(** X10: as long as no send fails, the loop keeps listening through any
    lines and sends exactly one [PONG :tmi.twitch.tv] per line that holds
    [PING], and nothing else. *)
Theorem one_pong_per_keepalive (lines : list (line_env * string)) (s : session) :
  forallb sends_ok lines = true ->
  fst (listen lines s) = Listening
  /\ sent (snd (listen lines s))
     = sent s ++ repeat PONG (length (filter is_keepalive lines)).
Proof. apply listen_keepalive_replies. Qed.

Lemma one_pong_per_keepalive_witness :
  sent (snd (listen [(Sample.quiet_send, Sample.alice_line);
                     (Sample.quiet_send, "PING :tmi.twitch.tv");
                     (Sample.quiet_send, Sample.alice_ping_line)]
               Sample.opening))
  = [PONG; PONG].
Proof.
  apply (one_pong_per_keepalive
           [(Sample.quiet_send, Sample.alice_line);
            (Sample.quiet_send, "PING :tmi.twitch.tv");
            (Sample.quiet_send, Sample.alice_ping_line)] Sample.opening).
  reflexivity.
Defined.

(** X11: a keepalive whose reply cannot be sent ends the loop: the lines
    after it are never looked at, whatever they are. *)
Theorem failed_pong_ends_loop
  (before after : list (line_env * string)) (le : line_env) (raw : string)
  (s : session) :
  str_in "PING" raw = true ->
  sends_ok (le, raw) = false ->
  fst (listen (before ++ (le, raw) :: after) s) = Disconnected
  /\ listen (before ++ (le, raw) :: after) s
     = listen (before ++ [(le, raw)]) s.
Proof.
  intros Hping Hsend. revert s.
  induction before as [| [le0 raw0] before IH]; intros s.
  - cbn [app listen].
    pose proof (listen_step_keepalive le raw s Hping) as Hst.
    rewrite Hsend in Hst.
    destruct (listen_step le raw s) as [st s']. cbn in Hst. subst st.
    split; reflexivity.
  - cbn [app listen].
    destruct (listen_step le0 raw0 s) as [[|] s'];
      [apply IH | split; [reflexivity | reflexivity]].
Qed.

Lemma failed_pong_ends_loop_witness :
  fst (listen ([(Sample.quiet_send, Sample.alice_line)]
               ++ (Cases.broken_send, "PING :tmi.twitch.tv")
                  :: [(Sample.quiet_send, Sample.alice_line)])
         Sample.opening) = Disconnected.
Proof.
  apply (failed_pong_ends_loop [(Sample.quiet_send, Sample.alice_line)]
           [(Sample.quiet_send, Sample.alice_line)]
           Cases.broken_send "PING :tmi.twitch.tv" Sample.opening);
    reflexivity.
Defined.

Lemma exec_print_then {A : Type} (l : stdout_line) (m : M A) (w : world) :
  exec (_ <~ print l ;; m) w = exec m (exec (print l) w).
Proof. reflexivity. Qed.

(** One iteration either leaves the reader and the database alone or
    counts one message and lets [process_message] run once. *)
Lemma listen_step_accounting (le : line_env) (raw : string) (s : session) :
  let s' := snd (listen_step le raw s) in
  channels (reader s') = channels (reader s)
  /\ ((message_count (reader s') = message_count (reader s)
       /\ db (shared s') = db (shared s)
       /\ analyzer (shared s') = analyzer (shared s))
      \/ (message_count (reader s') = (message_count (reader s) + 1)%Z
          /\ exists u c m,
               fst (parse_irc_message raw) = (Some u, Some c, Some m)
               /\ db (shared s')
                  = db (run_call (shared s) (process_env le, (u, c, m)))
               /\ analyzer (shared s')
                  = analyzer (run_call (shared s) (process_env le, (u, c, m))))).
Proof.
  unfold listen_step.
  destruct (str_in "PING" raw).
  - destruct (send_fault le); cbn; split; try reflexivity; left; repeat split.
  - destruct (parse_irc_message raw) as [[[u c] m] printed].
    destruct (truthy u && truthy c && truthy m) eqn:Ht.
    + cbn [snd reader shared channels message_count].
      split; [reflexivity |]. right. split; [reflexivity |].
      destruct u as [u |]; [| discriminate].
      destruct c as [c |]; [| cbn in Ht; now rewrite andb_false_r in Ht].
      destruct m as [m |]; [| cbn in Ht; now rewrite andb_false_r in Ht].
      exists u, c, m. split; [reflexivity |].
      rewrite exec_print_then. unfold run_call.
      rewrite !process_message_db, !process_message_analyzer. cbn.
      split; reflexivity.
    + cbn. split; [reflexivity |]. left. repeat split.
Qed.

(** X12: over any lines the reader's channel list is untouched, the
    message count only grows, by at most one per line, and the database
    gains at most as many message rows as messages were counted: nothing
    is stored that was not counted. *)
Theorem stored_messages_are_counted
  (lines : list (line_env * string)) (s : session) :
  let s' := snd (listen lines s) in
  channels (reader s') = channels (reader s)
  /\ (message_count (reader s) <= message_count (reader s'))%Z
  /\ (message_count (reader s')
      <= message_count (reader s) + Z.of_nat (length lines))%Z
  /\ (length (twitch_messages (db (shared s)))
      <= length (twitch_messages (db (shared s'))))%nat
  /\ (Z.of_nat (length (twitch_messages (db (shared s'))))
      - Z.of_nat (length (twitch_messages (db (shared s))))
      <= message_count (reader s') - message_count (reader s))%Z.
Proof.
  revert s. induction lines as [| [le raw] lines IH]; intros s.
  - cbn. repeat split; lia.
  - cbn [listen length].
    pose proof (listen_step_accounting le raw s) as Hstep.
    destruct (listen_step le raw s) as [st s1]. cbn [snd] in Hstep.
    assert (Hone :
      channels (reader s1) = channels (reader s)
      /\ (message_count (reader s) <= message_count (reader s1)
          <= message_count (reader s) + 1)%Z
      /\ (length (twitch_messages (db (shared s)))
          <= length (twitch_messages (db (shared s1))))%nat
      /\ (Z.of_nat (length (twitch_messages (db (shared s1))))
          - Z.of_nat (length (twitch_messages (db (shared s))))
          <= message_count (reader s1) - message_count (reader s))%Z).
    { destruct Hstep as [Hch [(Hc & Hd & _) | (Hc & u & c & m & _ & Hd & _)]].
      - rewrite Hc, Hd. repeat split; try assumption; lia.
      - rewrite Hc, Hd, run_call_db.
        destruct (inserts _); cbn [twitch_messages];
          rewrite ?length_app; cbn [length]; repeat split; try assumption; lia. }
    destruct Hone as (H1 & H2 & H3 & H4).
    destruct st.
    + specialize (IH s1). cbn zeta in IH.
      destruct IH as (I1 & I2 & I3 & I4 & I5).
      cbn zeta. rewrite I1, H1. repeat split; lia.
    + cbn [snd]. repeat split; try assumption; lia.
Qed.

(** X13: a well-formed chat post with non-empty user, channel and text and
    no [PING] in it is counted once and handed to [process_message] with
    exactly those three fields: nothing is sent, and the caches gain the
    entry of that call when it reaches the cache update and stay as they
    were when it fails. *)
Theorem chat_post_reaches_analyzer
  (le : line_env) (user host channel text : string) (s : session) :
  has_char "!"%char user = false ->
  has_char " "%char user = false ->
  has_char " "%char host = false ->
  has_char " "%char channel = false ->
  user <> "" -> channel <> "" -> text <> "" ->
  str_in "PING" (chat_post_line user host channel text) = false ->
  let k := (process_env le, (user, channel, text)) in
  let model := predict_label (analyzer (shared s)) in
  let s' := snd (listen_step le (chat_post_line user host channel text) s) in
  fst (listen_step le (chat_post_line user host channel text) s) = Listening
  /\ message_count (reader s') = (message_count (reader s) + 1)%Z
  /\ sent s' = sent s
  /\ analyzer (shared s')
     = (if succeeds model k
        then record (analyzer (shared s)) (entry_of model k) (score_of model k)
        else analyzer (shared s))
  /\ db (shared s') = db (run_call (shared s) k).
Proof.
  intros Hbang Huser Hhost Hchan Hu Hc Ht Hping k model s'.
  subst s'. unfold listen_step. rewrite Hping.
  rewrite (parse_chat_post_line user host channel text Hbang Huser Hhost Hchan).
  assert (Htruthy : truthy (Some user) && truthy (Some channel)
                    && truthy (Some text) = true).
  { unfold truthy.
    apply String.eqb_neq in Hu, Hc, Ht. now rewrite Hu, Hc, Ht. }
  rewrite Htruthy. cbn [fst snd reader shared sent message_count].
  do 3 (split; [reflexivity |]).
  rewrite exec_print_then. unfold run_call, k.
  rewrite !process_message_db, !process_message_analyzer. cbn.
  split; reflexivity.
Qed.

Lemma chat_post_reaches_analyzer_witness :
  map message
    (items (recent_messages
              (analyzer (shared (snd (listen_step Sample.quiet_send
                                        (chat_post_line "alice" "alice@x"
                                           "somechannel" "hello world")
                                        Sample.opening))))))
  = ["hello world"].
Proof.
  assert (Hu : "alice" <> "") by discriminate.
  assert (Hc : "somechannel" <> "") by discriminate.
  assert (Ht : "hello world" <> "") by discriminate.
  destruct (chat_post_reaches_analyzer Sample.quiet_send
              "alice" "alice@x" "somechannel" "hello world" Sample.opening
              eq_refl eq_refl eq_refl eq_refl Hu Hc Ht eq_refl)
    as (_ & _ & _ & Ha & _).
  rewrite Ha. reflexivity.
Defined.

(* ================================================================== *)
(** ** Further properties of the aggregate, the stream and the statistics *)
(* ================================================================== *)

Import Endpoints.

(** X14: along the ingestion path the body of [get_average_sentiment]
    answers only until the first message is recorded: while no call has
    reached the cache update it returns the empty snapshot, for every
    window; from the first recorded call on it raises [TypeError], for every
    window and for ever, since the cache never becomes empty again. *)
Theorem aggregate_fails_after_first_record
  (model : string -> result string) (d : database) (calls : list call)
  (n : Z) (utcnow : string) :
  let a := analyzer (run calls (start model d)) in
  (filter (succeeds model) calls = [] ->
   get_average_sentiment a n utcnow
   = Ok (VDict [("average_sentiment", VInt 0); ("message_count", VInt 0);
                ("timestamp", VStr utcnow)]))
  /\ (filter (succeeds model) calls <> [] ->
      get_average_sentiment a n utcnow
      = Raise (Exn TypeError "sequence index must be integer, not 'slice'")).
Proof.
  intros a.
  destruct (run_items_recorded calls (start model d) (cache_inv_init model))
    as [_ Hs].
  change (items (sentiment_cache a)
          = lastn 1000 (map (score_of model) (filter (succeeds model) calls)))
    in Hs.
  split; intros Hrec.
  - unfold get_average_sentiment, deque_is_empty.
    rewrite Hs, Hrec. reflexivity.
  - apply get_average_sentiment_nonempty. unfold deque_is_empty.
    destruct (items (sentiment_cache a)) as [| s l] eqn:E; [| reflexivity].
    exfalso. apply Hrec.
    apply (f_equal (@length Q)) in Hs.
    rewrite lastn_length, length_map in Hs. cbn [length] in Hs.
    destruct (filter (succeeds model) calls); [reflexivity | cbn in Hs; lia].
Qed.

(** X15: what a subscriber receives depends only on whether the global
    analyzer is set at each tick, never on the caches or the clock: with an
    analyzer it is the payload of the [AttributeError] followed by a 10
    second sleep, without one a 5 second sleep and no payload.  No tick ever
    yields a snapshot. *)
Theorem stream_never_yields_snapshot
  (ticks : list (option SentimentClassifier * string)) :
  event_stream ticks = flat_map (fun t => tick_events (fst t)) ticks.
Proof.
  induction ticks as [| [sa utcnow] ticks IH]; [reflexivity |].
  cbn [event_stream flat_map fst]. rewrite IH. f_equal.
  destruct sa as [a |]; reflexivity.
Qed.

Lemma inserts_length (w : world) (k : call) :
  length (twitch_messages (db (run_call w k)))
  = (length (twitch_messages (db w)) + (if inserts k then 1 else 0))%nat.
Proof.
  rewrite run_call_db. destruct (inserts k); cbn [twitch_messages].
  - now rewrite length_app.
  - lia.
Qed.

(** X16: after any run of calls the statistics endpoint reports the old
    number of messages plus the number of calls whose message insert went
    through, whether or not their sentiment was stored or cached; when the
    query itself fails the answer is a 500 carrying the error text. *)
Theorem stats_count_inserted (calls : list call) (w : world) (e : exn) :
  get_dashboard_stats None (db (run calls w))
  = Http200 (VList [VList [VInt (Z.of_nat
      (length (twitch_messages (db w)) + length (filter inserts calls)))]])
  /\ get_dashboard_stats (Some e) (db (run calls w))
     = Http500 ("Error retrieving stats: " ++ exn_str e)%string
  /\ (length (items (sentiment_cache (analyzer (run calls w))))
      <= length (items (sentiment_cache (analyzer w)))
         + length (filter inserts calls))%nat.
Proof.
  assert (Hlen : forall w0,
            length (twitch_messages (db (run calls w0)))
            = (length (twitch_messages (db w0))
               + length (filter inserts calls))%nat).
  { induction calls as [| k calls IH]; intros w0; [cbn; lia |].
    cbn [run fold_left filter]. unfold run in IH. rewrite IH, inserts_length.
    destruct (inserts k); cbn [length]; lia. }
  split; [unfold get_dashboard_stats; now rewrite Hlen |].
  split; [reflexivity |].
  clear Hlen. revert w.
  induction calls as [| k calls IH]; intros w; [cbn; lia |].
  cbn [run fold_left filter]. specialize (IH (run_call w k)). unfold run in IH.
  assert (Hstep : (length (items (sentiment_cache (analyzer (run_call w k))))
                   <= length (items (sentiment_cache (analyzer w)))
                      + (if inserts k then 1 else 0))%nat).
  { rewrite run_call_analyzer.
    destruct (succeeds (predict_label (analyzer w)) k) eqn:Hs; [| lia].
    rewrite (succeeds_inserts _ _ Hs). cbn [record sentiment_cache].
    unfold deque_append. rewrite length_app. cbn [length].
    destruct (_ <? _)%nat; cbn [items].
    - destruct (items (sentiment_cache (analyzer w)) ++ [_]) eqn:E;
        [cbn; lia |].
      apply (f_equal (@length Q)) in E. rewrite length_app in E. cbn in E |- *.
      lia.
    - rewrite length_app. cbn. lia. }
  destruct (inserts k); cbn [length]; lia.
Qed.

(* ================================================================== *)
(** ** Properties of the reader's start-up *)
(* ================================================================== *)

Import Startup.

Lemma lower_ascii_not_upper (c : ascii) : is_upper (lower_ascii c) = false.
Proof. destruct c as [[] [] [] [] [] [] [] []]; reflexivity. Qed.

Lemma lower_ascii_space (c : ascii) : is_space (lower_ascii c) = is_space c.
Proof. destruct c as [[] [] [] [] [] [] [] []]; reflexivity. Qed.

Lemma lower_ascii_comma (c : ascii) :
  Ascii.eqb (lower_ascii c) ","%char = Ascii.eqb c ","%char.
Proof. destruct c as [[] [] [] [] [] [] [] []]; reflexivity. Qed.

Lemma str_lower_comma (s : string) :
  has_char ","%char (str_lower s) = has_char ","%char s.
Proof.
  induction s as [| c s IH]; [reflexivity |].
  cbn. now rewrite lower_ascii_comma, IH.
Qed.

Lemma str_lower_leading (s : string) :
  leading_space (str_lower s) = leading_space s.
Proof. destruct s as [| c s]; [reflexivity | apply lower_ascii_space]. Qed.

Lemma str_lower_trailing (s : string) :
  trailing_space (str_lower s) = trailing_space s.
Proof.
  induction s as [| c s IH]; [reflexivity |].
  destruct s as [| d s]; [apply lower_ascii_space | exact IH].
Qed.

Lemma str_lower_not_upper (s : string) :
  all_chars (fun c => negb (is_upper c)) (str_lower s) = true.
Proof.
  induction s as [| c s IH]; [reflexivity |].
  cbn. now rewrite lower_ascii_not_upper, IH.
Qed.

Lemma str_lower_empty (s : string) : str_lower s = "" -> s = "".
Proof. destruct s; [trivial | discriminate]. Qed.

Lemma str_lstrip_leading (s : string) : leading_space (str_lstrip s) = false.
Proof.
  induction s as [| c s IH]; [reflexivity |].
  cbn. destruct (is_space c) eqn:E; [exact IH | exact E].
Qed.

Lemma str_rstrip_leading (s : string) :
  leading_space s = false -> leading_space (str_rstrip s) = false.
Proof.
  destruct s as [| c s]; [trivial |]. cbn. intros Hc.
  destruct (str_rstrip s); [rewrite Hc |]; exact Hc.
Qed.

Lemma str_rstrip_trailing (s : string) : trailing_space (str_rstrip s) = false.
Proof.
  induction s as [| c s IH]; [reflexivity |].
  cbn [str_rstrip]. destruct (str_rstrip s) as [| d t].
  - destruct (is_space c) eqn:E; [reflexivity | exact E].
  - exact IH.
Qed.

Lemma str_lstrip_free (x : ascii) (s : string) :
  has_char x s = false -> has_char x (str_lstrip s) = false.
Proof.
  induction s as [| c s IH]; [trivial |]. intros H. cbn.
  destruct (is_space c); [| exact H].
  cbn in H. apply orb_false_iff in H as [_ H]. now apply IH.
Qed.

Lemma str_rstrip_free (x : ascii) (s : string) :
  has_char x s = false -> has_char x (str_rstrip s) = false.
Proof.
  induction s as [| c s IH]; [trivial |]. intros H.
  cbn in H. apply orb_false_iff in H as [Hc H]. specialize (IH H).
  cbn [str_rstrip]. destruct (str_rstrip s) as [| d t].
  - destruct (is_space c); [reflexivity | cbn; now rewrite Hc].
  - cbn [has_char]. cbn [has_char] in IH. now rewrite Hc, IH.
Qed.

Lemma str_lstrip_blank (s : string) :
  all_chars is_space s = true -> str_lstrip s = "".
Proof.
  induction s as [| c s IH]; [trivial |]. cbn. intros H.
  apply andb_true_iff in H as [Hc H]. rewrite Hc. now apply IH.
Qed.

Lemma str_split_all_chars
  (p : ascii -> bool) (sep : ascii) (maxsplit : option nat) (s : string) :
  all_chars p s = true ->
  Forall (fun f => all_chars p f = true) (str_split sep maxsplit s).
Proof.
  revert maxsplit. induction s as [| a s IH]; intros maxsplit Hall.
  - constructor; [reflexivity | constructor].
  - cbn in Hall. apply andb_true_iff in Hall as [Ha Hs].
    cbn [str_split].
    destruct (may_split maxsplit && Ascii.eqb a sep).
    + constructor; [reflexivity | now apply IH].
    + specialize (IH maxsplit Hs).
      destruct (str_split sep maxsplit s) as [| f fs];
        [constructor; [cbn; now rewrite Ha | constructor] |].
      constructor; [| exact (Forall_inv_tail IH)].
      cbn. now rewrite Ha, (Forall_inv IH).
Qed.

Lemma parse_channels_clean (channels_str : string) :
  Forall (fun ch => ch <> ""
                    /\ has_char ","%char ch = false
                    /\ leading_space ch = false
                    /\ trailing_space ch = false)
    (parse_channels channels_str).
Proof.
  unfold parse_channels. apply Forall_map, Forall_forall.
  intros f Hf. apply filter_In in Hf as [Hin Hne].
  split; [| split; [| split]].
  - apply negb_true_iff, String.eqb_neq in Hne. exact Hne.
  - pose proof (str_split_all_free ","%char channels_str) as Hfree.
    rewrite Forall_forall in Hfree. specialize (Hfree f Hin). cbn beta in Hfree.
    unfold str_strip. now apply str_rstrip_free, str_lstrip_free.
  - unfold str_strip. apply str_rstrip_leading, str_lstrip_leading.
  - unfold str_strip. apply str_rstrip_trailing.
Qed.

(** X17: whenever [main] gets as far as building the reader, every channel
    the reader holds is non-empty, holds no comma, neither starts nor ends
    with whitespace and holds no upper-case ASCII letter, and its message
    count starts at 0. *)
Theorem main_channels_clean
  (vectorizer_exists classifier_exists : bool) (TWITCH_CHANNEL : option string)
  (printed : list main_line) (r : AnonymousTwitchReader) :
  main_reader vectorizer_exists classifier_exists TWITCH_CHANNEL
  = (printed, Some r) ->
  Forall (fun ch => ch <> ""
                    /\ has_char ","%char ch = false
                    /\ leading_space ch = false
                    /\ trailing_space ch = false
                    /\ all_chars (fun c => negb (is_upper c)) ch = true)
    (channels r)
  /\ message_count r = 0%Z
  /\ vectorizer_exists = true /\ classifier_exists = true
  /\ exists v, TWITCH_CHANNEL = Some v /\ v <> "".
Proof.
  unfold main_reader.
  destruct vectorizer_exists; [| discriminate].
  destruct classifier_exists; [| discriminate]. cbn [negb].
  destruct TWITCH_CHANNEL as [v |]; [| discriminate].
  destruct (String.eqb v "") eqn:Hv; [discriminate |].
  intros H. injection H as _ <-.
  split; [| split; [reflexivity | split; [reflexivity | split; [reflexivity |]]]].
  - unfold AnonymousTwitchReader_init. cbn [channels].
    apply Forall_map.
    eapply Forall_impl; [| apply parse_channels_clean]. cbn beta.
    intros ch (Hne & Hc & Hl & Ht).
    split; [intros E; apply Hne; now apply str_lower_empty |].
    rewrite str_lower_comma, str_lower_leading, str_lower_trailing,
      str_lower_not_upper. repeat split; assumption.
  - exists v. split; [reflexivity |]. now apply String.eqb_neq.
Qed.

Lemma main_channels_clean_witness :
  Forall (fun ch => ch <> ""
                    /\ has_char ","%char ch = false
                    /\ leading_space ch = false
                    /\ trailing_space ch = false
                    /\ all_chars (fun c => negb (is_upper c)) ch = true)
    ["somechannel"; "other_one"].
Proof.
  apply (main_channels_clean true true (Some " SomeChannel ,, Other_One,")
           [PrintBanner; PrintModelFilesFound;
            PrintChannels ["SomeChannel"; "Other_One"]; PrintInitializing]
           {| channels := ["somechannel"; "other_one"]; message_count := 0 |}).
  reflexivity.
Defined.

(** X18: a [TWITCH_CHANNEL] that is not empty but holds only commas and
    whitespace passes the not-set test of [main] and yields a reader with no
    channel at all. *)
Theorem blank_channel_list_starts_reader (v : string) :
  v <> "" ->
  all_chars (fun c => is_space c || Ascii.eqb c ","%char) v = true ->
  main_reader true true (Some v)
  = ([PrintBanner; PrintModelFilesFound; PrintChannels []; PrintInitializing],
     Some {| channels := []; message_count := 0 |})
  /\ handshake_lines {| channels := []; message_count := 0 |} = login_lines.
Proof.
  intros Hne Hall.
  assert (Hnone : parse_channels v = []).
  { unfold parse_channels.
    pose proof (str_split_all_chars _ ","%char None v Hall) as Hc.
    pose proof (str_split_all_free ","%char v) as Hf.
    induction (str_split ","%char None v) as [| f fs IH]; [reflexivity |].
    cbn [filter].
    assert (Hblank : str_strip f = "").
    { unfold str_strip. rewrite str_lstrip_blank; [reflexivity |].
      pose proof (Forall_inv Hc) as Hcf. pose proof (Forall_inv Hf) as Hff.
      cbn beta in Hcf, Hff. clear - Hcf Hff.
      induction f as [| c f IHf]; [reflexivity |].
      cbn in Hcf, Hff |- *.
      apply andb_true_iff in Hcf as [Hc Hcf].
      apply orb_false_iff in Hff as [Hx Hff].
      rewrite Hx, orb_false_r in Hc. rewrite Hc. now apply IHf. }
    rewrite Hblank. cbn.
    apply IH; [exact (Forall_inv_tail Hc) | exact (Forall_inv_tail Hf)]. }
  unfold main_reader. cbn [negb].
  apply String.eqb_neq in Hne. rewrite Hne, Hnone.
  split; reflexivity.
Qed.

Lemma blank_channel_list_starts_reader_witness :
  main_reader true true (Some " , ,")
  = ([PrintBanner; PrintModelFilesFound; PrintChannels []; PrintInitializing],
     Some {| channels := []; message_count := 0 |}).
Proof.
  apply (blank_channel_list_starts_reader " , ,");
    [discriminate | reflexivity].
Defined.

Lemma listen_sends_pongs (lines : list (line_env * string)) (s : session) :
  exists j, sent (snd (listen lines s)) = sent s ++ repeat PONG j.
Proof.
  revert s. induction lines as [| [le raw] lines IH]; intros s.
  - exists 0%nat. cbn. now rewrite app_nil_r.
  - cbn [listen].
    assert (Hstep : sent (snd (listen_step le raw s)) = sent s
                    \/ sent (snd (listen_step le raw s)) = sent s ++ [PONG]).
    { destruct (str_in "PING" raw) eqn:Hping.
      - right. now destruct (listen_step_ping le raw s Hping).
      - left. now destruct (listen_step_chat le raw s Hping). }
    destruct (listen_step le raw s) as [st s1]. cbn [snd] in Hstep.
    destruct st.
    + destruct (IH s1) as [j Hj]. rewrite Hj.
      destruct Hstep as [-> | ->]; [now exists j |].
      exists (S j). now rewrite <- app_assoc.
    + cbn [snd]. destruct Hstep as [-> | ->];
        [exists 0%nat; cbn; now rewrite app_nil_r | now exists 1%nat].
Qed.

Lemma listen_reader_channels (lines : list (line_env * string)) (s : session) :
  channels (reader (snd (listen lines s))) = channels (reader s).
Proof.
  revert s. induction lines as [| [le raw] lines IH]; intros s; [reflexivity |].
  cbn [listen].
  destruct (listen_step_accounting le raw s) as [Hch _].
  destruct (listen_step le raw s) as [st s1]. cbn [snd] in Hch.
  destruct st; [now rewrite IH | exact Hch].
Qed.

Lemma send_each_sent (faults : nat -> option exn) (i : nat)
  (commands : list (string * list console_line)) :
  exists k,
    fst (fst (send_each faults i commands)) = firstn k (map fst commands)
    /\ (snd (send_each faults i commands) = None ->
        fst (fst (send_each faults i commands)) = map fst commands).
Proof.
  revert i. induction commands as [| [command printed] rest IH]; intros i.
  - exists 0%nat. split; reflexivity.
  - cbn [send_each map fst].
    destruct (faults i) as [e |].
    + exists 1%nat. split; [reflexivity | discriminate].
    + destruct (IH (S i)) as [k [Hk Hall]].
      destruct (send_each faults (S i) rest) as [[sent_rest printed_rest] r].
      cbn [fst snd] in Hk, Hall |- *.
      exists (S k). split; [cbn; now rewrite Hk |].
      intros Hr. now rewrite (Hall Hr).
Qed.

Lemma handshake_commands_lines (r : AnonymousTwitchReader) :
  map fst (handshake_commands r) = handshake_lines r.
Proof.
  unfold handshake_commands, handshake_lines.
  rewrite map_app, !map_map. reflexivity.
Qed.

(** X19: whatever fails and whatever arrives, everything
    [connect_and_listen] ever sends is an initial part of PASS, NICK and one
    JOIN per channel in order, followed by PONGs only, and a PONG is only
    sent after the whole handshake: the reader never posts to chat.  The
    reader's channels are left as they were. *)
Theorem reader_sends_handshake_then_pongs
  (he : handshake_env) (lines : list (line_env * string))
  (r : AnonymousTwitchReader) (w : world) :
  let c := connect_and_listen he lines r w in
  channels (reader (final c)) = channels r
  /\ exists k j,
       sent (final c) = firstn k (handshake_lines r) ++ repeat PONG j
       /\ (j <> 0%nat -> firstn k (handshake_lines r) = handshake_lines r).
Proof.
  cbn zeta. unfold connect_and_listen.
  destruct (connect_fault he) as [e |].
  - cbn. split; [reflexivity |]. exists 0%nat, 0%nat.
    split; [reflexivity | intros H; now elim H].
  - destruct (send_each_sent (login_fault he) 0 (handshake_commands r))
      as [k [Hk Hall]].
    rewrite handshake_commands_lines in Hk, Hall.
    destruct (send_each (login_fault he) 0 (handshake_commands r))
      as [[sent0 printed] [e |]]; cbn [fst snd] in Hk, Hall.
    + cbn. split; [reflexivity |]. exists k, 0%nat.
      split; [now rewrite app_nil_r | intros H; now elim H].
    + pose proof (listen_sends_pongs lines
                    {| reader := r; shared := w; sent := sent0 |}) as [j Hj].
      pose proof (listen_reader_channels lines
                    {| reader := r; shared := w; sent := sent0 |}) as Hch.
      destruct (listen lines {| reader := r; shared := w; sent := sent0 |})
        as [st s]. cbn [snd sent reader] in Hj, Hch. cbn [final].
      split; [exact Hch |].
      exists (length (handshake_lines r)), j.
      rewrite firstn_all. split; [| reflexivity].
      now rewrite Hj, (Hall eq_refl).
Qed.

(** X20: when the connection comes up and no send fails, the reader sends
    PASS, NICK and one JOIN per channel in order, prints one joined line per
    channel between the connected and the listening lines, keeps listening
    to the end of the lines, and after the handshake sends one PONG per line
    holding [PING]. *)
Theorem clean_session_transcript
  (he : handshake_env) (lines : list (line_env * string))
  (r : AnonymousTwitchReader) (w : world) :
  connect_fault he = None ->
  (forall i, login_fault he i = None) ->
  forallb sends_ok lines = true ->
  let c := connect_and_listen he lines r w in
  status c = Listening
  /\ console c
     = [PrintConnecting; PrintConnected] ++ map PrintJoined (channels r)
       ++ [PrintListening]
  /\ sent (final c)
     = ["PASS oauth:justinfan12345"; "NICK justinfan12345"]
       ++ map join_line (channels r)
       ++ repeat PONG (length (filter is_keepalive lines)).
Proof.
  intros Hconn Hlogin Hsend. cbn zeta. unfold connect_and_listen.
  rewrite Hconn.
  assert (Heach : forall i commands,
            send_each (login_fault he) i commands
            = (map fst commands, flat_map snd commands, None)).
  { intros i commands. revert i.
    induction commands as [| [command printed] rest IH]; intros i;
      [reflexivity |].
    cbn [send_each]. rewrite Hlogin, IH. reflexivity. }
  rewrite Heach, handshake_commands_lines.
  assert (Hprinted : flat_map snd (handshake_commands r)
                     = map PrintJoined (channels r)).
  { unfold handshake_commands. rewrite flat_map_app. cbn [login_lines map flat_map snd app].
    induction (channels r) as [| ch chs IH]; [reflexivity |].
    cbn [map flat_map snd app]. cbn [map flat_map snd app] in IH.
    now rewrite IH. }
  rewrite Hprinted.
  pose proof (listen_keepalive_replies lines
                {| reader := r; shared := w; sent := handshake_lines r |}
                Hsend) as Hloop.
  cbn [sent] in Hloop.
  destruct Hloop as [Hst Hsent].
  destruct (listen lines {| reader := r; shared := w;
                            sent := handshake_lines r |}) as [st s].
  cbn [fst snd] in Hst, Hsent. cbn [status console final].
  split; [exact Hst |]. split; [reflexivity |].
  rewrite Hsent. unfold handshake_lines, login_lines.
  now rewrite <- app_assoc.
Qed.

Lemma clean_session_transcript_witness :
  sent (final (connect_and_listen Cases.calm
                 [(Sample.quiet_send, Sample.alice_line);
                  (Sample.quiet_send, "PING :tmi.twitch.tv")]
                 (reader Sample.opening) Sample.fresh))
  = ["PASS oauth:justinfan12345"; "NICK justinfan12345";
     "JOIN #somechannel"; PONG].
Proof.
  apply (clean_session_transcript Cases.calm
           [(Sample.quiet_send, Sample.alice_line);
            (Sample.quiet_send, "PING :tmi.twitch.tv")]
           (reader Sample.opening) Sample.fresh);
    [reflexivity | intros i; reflexivity | reflexivity].
Defined.
